(** * A PID-controlled room heater: the simulation loop of [appy.py]

    The numerical core of the repository is the function
    [simulate_pid_room] (appy.py, lines 160-220).  It fills four numpy
    arrays [t], [T], [u], [e] of [n_steps] float64 cells by a single
    forward loop that couples a PID controller with a first-order thermal
    lag.

    The embedding keeps the data of the program:
    - a Python [float] / numpy [float64] is a primitive binary64 float
      ([PrimFloat.float]), with IEEE-754 rounding, infinities and NaN;
    - a one-dimensional [ndarray] is a [list float], written by index
      with the list insert of stdpp; indices are Python integers ([Z]),
      negative ones count from the end, and an index out of range raises
      [IndexError];
    - exceptions are threaded through a small error monad. *)

From Stdlib Require Import ZArith Floats Bool Lia.
From stdpp Require Import base list relations.

Local Open Scope Z_scope.

(** ** Exceptions and the error monad *)

(** The exceptions that the numpy calls of [simulate_pid_room] can raise. *)
Inductive exn : Set :=
| ValueError   (* np.zeros with a negative dimension *)
| IndexError.  (* an index outside an array *)

Inductive result (A : Type) : Type :=
| Ok (a : A)
| Raise (x : exn).
Arguments Ok {A} a.
Arguments Raise {A} x.

#[global] Instance result_ret : MRet result := fun A a => Ok a.

#[global] Instance result_bind : MBind result := fun A B f m =>
  match m with
  | Ok a => f a
  | Raise x => Raise x
  end.

(** ** Arrays of float64 *)

Module np.

Abbreviation ndarray := (list float).

(** [np.zeros(n)]: [n] cells holding [0.0]; a negative [n] is refused.
    The array is taken to be granted: what numpy does with a size that
    the machine cannot hold ([ValueError] beyond the largest dimension,
    [MemoryError] when the allocation fails) depends on the machine and
    is left out.  The statements about which calls raise are kept to
    what holds whatever the machine grants. *)
Definition zeros (n : Z) : result ndarray :=
  if n <? 0 then Raise ValueError
  else Ok (replicate (Z.to_nat n) 0%float).

(** Python index normalisation for an array of [len] cells: a negative
    index counts from the end, and anything outside [0, len) raises. *)
Definition index (len : nat) (i : Z) : result nat :=
  let j := if i <? 0 then i + Z.of_nat len else i in
  if (0 <=? j) && (j <? Z.of_nat len) then Ok (Z.to_nat j)
  else Raise IndexError.

(** [a[i]] *)
Definition getitem (a : ndarray) (i : Z) : result float :=
  j ← index (length a) i;
  match a !! j with
  | Some x => Ok x
  | None => Raise IndexError
  end.

(** [a[i] = x] *)
Definition setitem (a : ndarray) (i : Z) (x : float) : result ndarray :=
  j ← index (length a) i;
  Ok (<[j := x]> a).

(** [np.clip(x, lo, hi)] on float64 scalars: with bounds that are not
    NaN, [x] is raised to [lo] when it is below [lo] and then lowered to
    [hi] when it is above [hi].  Both comparisons fail on a NaN, which is
    handed through, and [-0.0] is not below [0.0], so it is handed
    through as well.  A NaN bound makes the result NaN. *)
Definition clip (x lo hi : float) : float :=
  if PrimFloat.is_nan lo || PrimFloat.is_nan hi then nan
  else
    let y := if PrimFloat.ltb x lo then lo else x in
    if PrimFloat.ltb hi y then hi else y.

End np.

(** [range(n)] *)
Definition range (n : Z) : list Z :=
  map Z.of_nat (seq 0 (Z.to_nat n)).

(** [for k in ks: s = body(k, s)], stopping at the first exception. *)
Fixpoint for_each {S : Type} (ks : list Z) (body : Z -> S -> result S)
    (s : S) : result S :=
  match ks with
  | [] => Ok s
  | k :: ks' => s' ← body k s; for_each ks' body s'
  end.

(** ** The driver *)

(** The local variables of [simulate_pid_room] that live across loop
    iterations. *)
Record locals : Set := Locals {
  t : np.ndarray;
  T : np.ndarray;
  u : np.ndarray;
  e : np.ndarray;
  integral : float;
  prev_error : float
}.

Definition trace : Set :=
  (np.ndarray * np.ndarray * np.ndarray * np.ndarray)%type.

Section Driver.

Variables T_ambient T_set T_initial tau k_heat Kp Ki Kd dt : float.
Variable n_steps : Z.

Local Open Scope float_scope.

(** Lines 179-188: allocation and the first sample. *)
Definition init : result locals :=
  t0 ← np.zeros n_steps;
  T0 ← np.zeros n_steps;
  u0 ← np.zeros n_steps;
  e0 ← np.zeros n_steps;
  T1 ← np.setitem T0 0 T_initial;
  T_0 ← np.getitem T1 0;
  e1 ← np.setitem e0 0 (T_set - T_0);
  e_0 ← np.getitem e1 0;
  Ok (Locals t0 T1 u0 e1 0 e_0).

(** Lines 191-213: one iteration of the loop. *)
Definition loop_body (k : Z) (s : locals) : result locals :=
  T_k ← np.getitem (T s) k;
  let error := T_set - T_k in
  e' ← np.setitem (e s) k error;
  let integral' := integral s + error * dt in
  let derivative := (error - prev_error s) / dt in
  let u_raw := Kp * error + Ki * integral' + Kd * derivative in
  u' ← np.setitem (u s) k (np.clip u_raw 0 100);
  T_k1 ← np.getitem (T s) k;
  u_k ← np.getitem u' k;
  let dTdt := - (T_k1 - T_ambient) / tau + k_heat * (u_k / 100) in
  T_k2 ← np.getitem (T s) k;
  T' ← np.setitem (T s) (k + 1)%Z (T_k2 + dTdt * dt);
  t_k ← np.getitem (t s) k;
  t' ← np.setitem (t s) (k + 1)%Z (t_k + dt);
  Ok (Locals t' T' u' e' integral' error).

(** Lines 215-220: the last sample and the returned tuple. *)
Definition finish (s : locals) : result trace :=
  T_last ← np.getitem (T s) (-1);
  e' ← np.setitem (e s) (-1) (T_set - T_last);
  u_prev ← np.getitem (u s) (-2);
  u' ← np.setitem (u s) (-1) u_prev;
  Ok (t s, T s, u', e').

Definition simulate_pid_room : result trace :=
  s0 ← init;
  s ← for_each (range (n_steps - 1)) loop_body s0;
  finish s.

(** The locals as they stand when the first [j] iterations are done. *)
Definition loop_prefix (j : Z) : result locals :=
  s0 ← init;
  for_each (range j) loop_body s0.

(** ** Reading a trace *)

(** What the statement [integral += error * dt] has accumulated over a
    list of errors, added in the order of the loop. *)
Definition accumulate (errors : list float) : float :=
  fold_left (fun acc err => acc + err * dt) errors 0.

(** The four arrays record iteration [k]: cell [k] of [e] and [u] and
    cell [k + 1] of [T] and [t] hold what lines 192-210 compute from
    cell [k] of [T] and [t], the errors up to [k], and the error before
    (the error of the first sample when [k = 0]). *)
Definition records_step (k : nat) (t T u e : np.ndarray) : Prop :=
  exists T_k t_k u_k prev,
    T !! k = Some T_k /\ t !! k = Some t_k /\ u !! k = Some u_k /\
    e !! Nat.pred k = Some prev /\
    let error := T_set - T_k in
    let derivative := (error - prev) / dt in
    e !! k = Some error /\
    u_k = np.clip (Kp * error + Ki * accumulate (take (S k) e)
                   + Kd * derivative) 0 100 /\
    T !! S k
      = Some (T_k + (- (T_k - T_ambient) / tau + k_heat * (u_k / 100)) * dt) /\
    t !! S k = Some (t_k + dt).

(** The loop invariant: what holds of the locals after [j] iterations. *)
Definition loop_inv (j : nat) (s : locals) : Prop :=
  length (t s) = Z.to_nat n_steps /\
  length (T s) = Z.to_nat n_steps /\
  length (u s) = Z.to_nat n_steps /\
  length (e s) = Z.to_nat n_steps /\
  t s !! 0%nat = Some 0 /\
  T s !! 0%nat = Some T_initial /\
  e s !! 0%nat = Some (T_set - T_initial) /\
  integral s = accumulate (take j (e s)) /\
  e s !! Nat.pred j = Some (prev_error s) /\
  forall k, (k < j)%nat -> records_step k (t s) (T s) (u s) (e s).

(** What a returned trace looks like: four arrays of [n_steps] cells,
    the first sample, every iteration recorded, and the last cells of
    [e] and [u] filled after the loop. *)
Definition trace_spec (tr : trace) : Prop :=
  let '(t, T, u, e) := tr in
  let N := Z.to_nat n_steps in
  length t = N /\ length T = N /\ length u = N /\ length e = N /\
  t !! 0%nat = Some 0 /\
  T !! 0%nat = Some T_initial /\
  (forall k, (S k < N)%nat -> records_step k t T u e) /\
  exists T_last u_prev,
    T !! (N - 1)%nat = Some T_last /\
    e !! (N - 1)%nat = Some (T_set - T_last) /\
    u !! (N - 2)%nat = Some u_prev /\
    u !! (N - 1)%nat = Some u_prev.

(** *** The properties of a trace, one by one *)

(** Four arrays of [n_steps] cells, starting at time [0] and at the
    initial temperature. *)
Definition well_shaped (tr : trace) : Prop :=
  let '(t, T, u, e) := tr in
  let N := Z.to_nat n_steps in
  length t = N /\ length T = N /\ length u = N /\ length e = N /\
  t !! 0%nat = Some 0 /\ T !! 0%nat = Some T_initial.

(** The last error is computed from the last temperature, the last
    control value is the one before it. *)
Definition last_sample_filled (tr : trace) : Prop :=
  let '(t, T, u, e) := tr in
  let N := Z.to_nat n_steps in
  exists T_last u_prev,
    T !! (N - 1)%nat = Some T_last /\
    e !! (N - 1)%nat = Some (T_set - T_last) /\
    u !! (N - 2)%nat = Some u_prev /\
    u !! (N - 1)%nat = Some u_prev.

(** Each temperature but the first is one forward Euler step from the
    temperature and the recorded control value before it. *)
Definition euler_steps (tr : trace) : Prop :=
  let '(t, T, u, e) := tr in
  forall k, (S k < Z.to_nat n_steps)%nat ->
    exists T_k u_k u_raw,
      T !! k = Some T_k /\ u !! k = Some u_k /\
      u_k = np.clip u_raw 0 100 /\
      T !! S k
        = Some (T_k + (- (T_k - T_ambient) / tau + k_heat * (u_k / 100)) * dt).

(** Each time but the first is the float64 sum of the time before it
    and [dt]. *)
Definition time_steps (tr : trace) : Prop :=
  let '(t, T, u, e) := tr in
  t !! 0%nat = Some 0 /\
  forall k, (S k < Z.to_nat n_steps)%nat ->
    exists t_k, t !! k = Some t_k /\ t !! S k = Some (t_k + dt).

(** A control value is a percentage: between [0] and [100]. *)
Definition percentage (x : float) : Prop :=
  (0 <=? x) = true /\ (x <=? 100) = true.

(** The control values written by the loop come out of [np.clip], and
    are percentages unless they are NaN. *)
Definition loop_controls_clipped (tr : trace) : Prop :=
  let '(t, T, u, e) := tr in
  forall k u_k, (S k < Z.to_nat n_steps)%nat -> u !! k = Some u_k ->
    (exists u_raw, u_k = np.clip u_raw 0 100) /\
    (PrimFloat.is_nan u_k = false -> percentage u_k).

(** Every cell of [u], the last one too, is a percentage unless it is
    NaN. *)
Definition controls_in_range (tr : trace) : Prop :=
  let '(t, T, u, e) := tr in
  forall k u_k, u !! k = Some u_k ->
    PrimFloat.is_nan u_k = false -> percentage u_k.

(** What iteration [k] does to the controller, from the locals [s]
    before it to the locals [s'] after it. *)
Definition controller_step (k : nat) (s s' : locals) : Prop :=
  exists T_k,
    T s !! k = Some T_k /\
    let error := T_set - T_k in
    let derivative := (error - prev_error s) / dt in
    let u_raw := Kp * error + Ki * integral s' + Kd * derivative in
    integral s' = integral s + error * dt /\
    integral s' = accumulate (take (S k) (e s')) /\
    prev_error s' = error /\
    e s' !! k = Some error /\
    u s' !! k = Some (np.clip u_raw 0 100).

(** ** The same control flow as a transition system *)

(** One call of [simulate_pid_room] goes from [Entry] through the loop
    heads [Looping k s] to [Returned tr] or [Raised x]. *)
Inductive status : Type :=
| Entry
| Looping (k : Z) (s : locals)
| Returned (tr : trace)
| Raised (x : exn).

Inductive step : status -> status -> Prop :=
| step_enter s0 :
    init = Ok s0 -> step Entry (Looping 0 s0)
| step_enter_raise x :
    init = Raise x -> step Entry (Raised x)
| step_iterate k s s' :
    (k < n_steps - 1)%Z -> loop_body k s = Ok s' ->
    step (Looping k s) (Looping (k + 1) s')
| step_iterate_raise k s x :
    (k < n_steps - 1)%Z -> loop_body k s = Raise x ->
    step (Looping k s) (Raised x)
| step_leave k s tr :
    (n_steps - 1 <= k)%Z -> finish s = Ok tr ->
    step (Looping k s) (Returned tr)
| step_leave_raise k s x :
    (n_steps - 1 <= k)%Z -> finish s = Raise x ->
    step (Looping k s) (Raised x).

Definition outcome (r : result trace) : status :=
  match r with
  | Ok tr => Returned tr
  | Raise x => Raised x
  end.

(** A call ends with [r]: the trace it returns or the exception it
    raises. *)
Definition invocation (r : result trace) : Prop :=
  rtc step Entry (outcome r).

End Driver.

(** ** Scenarios *)

Local Open Scope float_scope.

(** The pure-P run: [Kp = 1.5], no integral and no derivative gain, from
    18 degrees to a set point of 22 in a room at 20, 301 samples one
    second apart. *)
Definition pure_p_run : result trace :=
  simulate_pid_room 20 22 18 60 0.5 1.5 0 0 1 301.

(** The float64 nearest to one tenth, Python's [0.1]. *)
Definition one_tenth : float := 0x1.999999999999ap-4.

(** Four samples a tenth of a second apart. *)
Definition tenth_run : result trace :=
  simulate_pid_room 20 22 18 60 0.5 1.5 0 0 one_tenth 4.

(** A time step of zero. *)
Definition zero_dt_run : result trace :=
  simulate_pid_room 20 22 18 60 0.5 1.5 0 0 0 3.

(** A time step five times the time constant: the explicit Euler scheme
    is unstable and the temperature overflows. *)
Definition unstable_run (n_steps : Z) : result trace :=
  simulate_pid_room 20 22 18 1 0.5 1.5 0 0 5 n_steps.

(** A set point and an initial temperature at the two ends of the
    float64 range: the very first error overflows. *)
Definition overflow_run : result trace :=
  simulate_pid_room 20 0x1.fffffffffffffp+1023 (-0x1.fffffffffffffp+1023)
    60 0.5 1.5 one_tenth 0 1 2.

(** Gains and a set point that saturate the heater from the first
    sample on; the locals after two iterations. *)
Definition saturated_prefix : result locals :=
  loop_prefix 20 30 0 60 0.5 5 1 0 1 3 2.

(** Checks on a computed array. *)
Fixpoint strictly_rising (l : list float) : bool :=
  match l with
  | a :: (b :: _) as l' => (a <? b) && strictly_rising l'
  | _ => true
  end.

Definition all_below (bound : float) (l : list float) : bool :=
  forallb (fun x => x <? bound) l.

Fixpoint evenly_spaced (dt : float) (l : list float) : bool :=
  match l with
  | a :: (b :: _) as l' => (b - a =? dt) && evenly_spaced dt l'
  | _ => true
  end.

Local Close Scope float_scope.

(** ** Further readings of a trace *)

Section Readings.

Variables T_set Kp Ki Kd dt : float.
Variable n_steps : Z.

Local Open Scope float_scope.

(** At every index the error is the set point minus the temperature. *)
Definition errors_track_temperature (tr : trace) : Prop :=
  let '(t, T, u, e) := tr in
  forall k T_k, T !! k = Some T_k -> e !! k = Some (T_set - T_k).

(** The raw output of the controller at step [k], recomputed from the
    array of errors alone: the proportional term on [e[k]], the integral
    term on the errors up to [k], the derivative term on [e[k]] and the
    error before it ([e[0]] itself when [k = 0]). *)
Definition raw_control (e : list float) (k : nat) : float :=
  let e_k := nth k e 0 in
  let prev := nth (Nat.pred k) e 0 in
  Kp * e_k + Ki * accumulate dt (take (S k) e) + Kd * ((e_k - prev) / dt).

(** The control values written by the loop follow from the errors. *)
Definition controls_follow_errors (tr : trace) : Prop :=
  let '(t, T, u, e) := tr in
  forall k, (S k < Z.to_nat n_steps)%nat ->
    u !! k = Some (np.clip (raw_control e k) 0 100).

(** From index [k] on, every temperature, control value and error of the
    trace is NaN. *)
Definition nan_from (k : nat) (tr : trace) : Prop :=
  let '(t, T, u, e) := tr in
  forall j x, (k <= j)%nat ->
    T !! j = Some x \/ u !! j = Some x \/ e !! j = Some x ->
    PrimFloat.is_nan x = true.

(** The times [t0], [t0 + dt], [(t0 + dt) + dt], ...: [n] of them. *)
Fixpoint time_axis_from (t0 : float) (n : nat) : list float :=
  match n with
  | O => []
  | S n' => t0 :: time_axis_from (t0 + dt) n'
  end.

Definition time_axis (n : nat) : list float := time_axis_from 0 n.

End Readings.

(** A trace is the beginning of a longer one: the times, temperatures
    and errors are the first [N] of the longer trace, and so are the
    control values but the last. *)
Definition prefix_of_trace (N : nat) (short long : trace) : Prop :=
  let '(t, T, u, e) := short in
  let '(t', T', u', e') := long in
  t = take N t' /\ T = take N T' /\ e = take N e' /\
  take (N - 1) u = take (N - 1) u'.

(** ** The page around the driver *)

(** The page (the module-level code of [appy.py]) computes [n_steps]
    from two sliders (line 150), calls the driver on the slider values
    (lines 224-235) and cuts the first rows of the trace out for a table
    (lines 273-281).  Sliders, texts and plots are left out: the slider
    values are the arguments here, and the result is what is plotted and
    tabulated. *)

(** The exceptions of the page: the two of the driver, which are also
    what [int] raises on a NaN ([ValueError]), and two more. *)
Inductive py_exn : Set :=
| ZeroDivisionError   (* float division by zero *)
| OverflowError       (* int() of an infinity *)
| Builtin (x : exn).

Inductive py_result (A : Type) : Type :=
| Done (a : A)
| Throw (x : py_exn).
Arguments Done {A} a.
Arguments Throw {A} x.

#[global] Instance py_result_ret : MRet py_result := fun A a => Done a.

#[global] Instance py_result_bind : MBind py_result := fun A B f m =>
  match m with
  | Done a => f a
  | Throw x => Throw x
  end.

(** A call of the driver from the page. *)
Definition call {A : Type} (r : result A) : py_result A :=
  match r with
  | Ok a => Done a
  | Raise x => Throw (Builtin x)
  end.

Module py.

(** [a / b] on Python floats: a zero divisor, of either sign, raises. *)
Definition truediv (a b : float) : py_result float :=
  if PrimFloat.eqb b 0 then Throw ZeroDivisionError
  else Done (a / b)%float.

(** [int(x)] on a Python float: the integer part, towards zero. *)
Definition int (x : float) : py_result Z :=
  match Prim2SF x with
  | S754_nan => Throw (Builtin ValueError)
  | S754_infinity _ => Throw OverflowError
  | S754_zero _ => Done 0%Z
  | S754_finite s m e => Done (cond_Zopp s (Z.shiftl (Z.pos m) e))
  end.

(** [a[:stop]]: a negative [stop] counts from the end, and the bounds
    are clipped to the array. *)
Definition slice_to (a : list float) (stop : Z) : list float :=
  let len := Z.of_nat (length a) in
  let stop' := if (stop <? 0)%Z then Z.max 0 (stop + len) else Z.min stop len in
  take (Z.to_nat stop') a.

End py.

(** What the page shows: the number of steps, the trace that is plotted
    and the data frame of the table, column by column. *)
Record page : Set := Page {
  shown_n_steps : Z;
  plotted : trace;
  df : trace
}.

Definition appy
    (T_ambient T_set tau k_heat Kp Ki Kd T_initial t_max dt : float) :
    py_result page :=
  q ← py.truediv t_max dt;
  i ← py.int q;
  let n_steps := (i + 1)%Z in
  tr ← call (simulate_pid_room T_ambient T_set T_initial tau k_heat
               Kp Ki Kd dt n_steps);
  let '(t, T, u, e) := tr in
  let max_rows := Z.min 20 n_steps in
  Done (Page n_steps tr
          (py.slice_to t max_rows, py.slice_to T max_rows,
           py.slice_to u max_rows, py.slice_to e max_rows)).

(** The table holds the first rows of the trace, between 2 and 20 of
    them, and in each row the error is the set point minus the
    temperature. *)
Definition table_of_first_rows (T_set : float) (p : page) : Prop :=
  let '(t, T, u, e) := plotted p in
  let rows := Z.to_nat (Z.min 20 (shown_n_steps p)) in
  (2 <= rows <= 20)%nat /\
  (rows = 20%nat \/ Z.of_nat rows = shown_n_steps p) /\
  df p = (take rows t, take rows T, take rows u, take rows e) /\
  length (take rows t) = rows /\ length (take rows T) = rows /\
  length (take rows u) = rows /\ length (take rows e) = rows /\
  forall i T_i, take rows T !! i = Some T_i ->
    take rows e !! i = Some (T_set - T_i)%float.

(** The pages for the default sliders with a duration of 300 and of 600
    seconds; an empty page stands for a page that raised. *)
Definition page_or_empty (r : py_result page) : page :=
  match r with
  | Done p => p
  | Throw _ => Page 0 ([], [], [], []) ([], [], [], [])
  end.

Definition page_300 : page :=
  Eval vm_compute in
    page_or_empty (appy 20 22 60 0.5 1.5 one_tenth 0 18 300 1).

Definition page_600 : page :=
  Eval vm_compute in
    page_or_empty (appy 20 22 60 0.5 1.5 one_tenth 0 18 600 1).


(** * Properties *)

Lemma bind_Ok {A B : Type} (a : A) (f : A -> result B) : (Ok a ≫= f) = f a.
Proof. reflexivity. Qed.

Lemma bind_Raise {A B : Type} (x : exn) (f : A -> result B) :
  (Raise x ≫= f) = Raise x.
Proof. reflexivity. Qed.

(** ** Comparisons of floats and [np.clip] *)

Lemma ltb_leb (x y : float) :
  PrimFloat.ltb x y = true -> PrimFloat.leb x y = true.
Proof.
  rewrite ltb_spec, leb_spec. unfold SFltb, SFleb.
  now destruct (SFcompare (Prim2SF x) (Prim2SF y)) as [[]|].
Qed.

Lemma SFcompare_refl (p : spec_float) :
  p <> S754_nan -> SFcompare p p = Some Eq.
Proof.
  destruct p as [s|s| |s m e]; intros Hp; try congruence; simpl.
  - now destruct s.
  - now destruct s.
  - rewrite Z.compare_refl, Pos.compare_cont_refl. now destruct s.
Qed.

Lemma is_nan_spec (x : float) :
  PrimFloat.is_nan x
  = match Prim2SF x with S754_nan => true | _ => false end.
Proof.
  unfold PrimFloat.is_nan. rewrite FloatAxioms.eqb_spec. unfold SFeqb.
  destruct (Prim2SF x) as [s|s| |s m e] eqn:E; try reflexivity;
    now rewrite SFcompare_refl.
Qed.

Lemma Prim2SF_nan_eq (x : float) : Prim2SF x = S754_nan -> x = nan.
Proof. intros H. rewrite <- (SF2Prim_Prim2SF x), H. reflexivity. Qed.

(** There is one NaN. *)
Lemma is_nan_eq (x : float) : PrimFloat.is_nan x = true -> x = nan.
Proof.
  rewrite is_nan_spec. intros H. apply Prim2SF_nan_eq.
  now destruct (Prim2SF x).
Qed.


Lemma SFcompare_antisym (p q : spec_float) :
  SFcompare q p = option_map CompOpp (SFcompare p q).
Proof.
  destruct p as [s|s| |s m e], q as [s'|s'| |s' m' e'];
    try reflexivity;
    try (destruct s; reflexivity); try (destruct s'; reflexivity);
    try (destruct s, s'; reflexivity).
  simpl. rewrite (Z.compare_antisym e e').
  change (Pos.compare_cont Eq m' m)
    with (Pos.compare_cont (CompOpp Eq) m' m).
  rewrite <- (Pos.compare_cont_antisym m m' Eq).
  destruct s, s'; try reflexivity;
    destruct (e ?= e')%Z; simpl; try reflexivity;
    now destruct (Pos.compare_cont Eq m m').
Qed.

Lemma ltb_nan_l (x y : float) :
  PrimFloat.is_nan x = true -> PrimFloat.ltb x y = false.
Proof.
  rewrite is_nan_spec, ltb_spec. unfold SFltb.
  now destruct (Prim2SF x).
Qed.

Lemma ltb_nan_r (x y : float) :
  PrimFloat.is_nan y = true -> PrimFloat.ltb x y = false.
Proof.
  rewrite is_nan_spec, ltb_spec. unfold SFltb.
  destruct (Prim2SF y); try discriminate. now destruct (Prim2SF x).
Qed.

(** Two floats that are not NaN are comparable. *)
Lemma not_ltb_leb (x y : float) :
  PrimFloat.is_nan x = false -> PrimFloat.is_nan y = false ->
  PrimFloat.ltb x y = false -> PrimFloat.leb y x = true.
Proof.
  rewrite !is_nan_spec, ltb_spec, leb_spec. unfold SFltb, SFleb.
  rewrite (SFcompare_antisym (Prim2SF x) (Prim2SF y)).
  intros Hx Hy.
  destruct (SFcompare (Prim2SF x) (Prim2SF y)) as [[]|] eqn:E;
    try reflexivity; try discriminate.
  destruct (Prim2SF x), (Prim2SF y); discriminate.
Qed.

Lemma clip_0_100 (x : float) :
  np.clip x 0 100
  = (let y := if PrimFloat.ltb x 0 then 0%float else x in
     if PrimFloat.ltb 100 y then 100%float else y).
Proof. reflexivity. Qed.

(** A negative zero is not below [0.0]: it stays what it is. *)
Lemma clip_negative_zero : np.clip (-0) 0 100 = (-0)%float.
Proof. vm_compute. reflexivity. Qed.

Lemma clip_not_nan (x : float) :
  PrimFloat.is_nan x = false ->
  PrimFloat.is_nan (np.clip x 0 100) = false.
Proof.
  intros Hx. rewrite clip_0_100. cbv zeta.
  destruct (PrimFloat.ltb x 0).
  - reflexivity.
  - now destruct (PrimFloat.ltb 100 x).
Qed.

Lemma clip_nan (x : float) :
  PrimFloat.is_nan x = true -> PrimFloat.is_nan (np.clip x 0 100) = true.
Proof.
  intros Hx. rewrite clip_0_100. cbv zeta.
  now rewrite (ltb_nan_l x 0 Hx), (ltb_nan_r 100 x Hx).
Qed.

Lemma clip_percentage (x : float) :
  PrimFloat.is_nan x = false -> percentage (np.clip x 0 100).
Proof.
  intros Hx. unfold percentage. rewrite clip_0_100. cbv zeta.
  destruct (PrimFloat.ltb x 0) eqn:Hlo.
  - split; reflexivity.
  - destruct (PrimFloat.ltb 100 x) eqn:Hhi.
    + split; reflexivity.
    + split; now apply not_ltb_leb.
Qed.

(** A value that [np.clip] returned is a percentage unless it is NaN. *)
Lemma clipped_percentage (x : float) :
  PrimFloat.is_nan (np.clip x 0 100) = false -> percentage (np.clip x 0 100).
Proof.
  intros H. apply clip_percentage.
  destruct (PrimFloat.is_nan x) eqn:Hx; [|reflexivity].
  now rewrite (clip_nan x Hx) in H.
Qed.

(** ** Array accesses that succeed *)

Module np_facts.

Lemma index_nat (len i : nat) :
  (i < len)%nat -> np.index len (Z.of_nat i) = Ok i.
Proof.
  intros Hi. unfold np.index.
  destruct (Z.ltb_spec (Z.of_nat i) 0) as [?|_]; [lia|].
  destruct (Z.leb_spec 0 (Z.of_nat i)) as [_|?]; [|lia].
  destruct (Z.ltb_spec (Z.of_nat i) (Z.of_nat len)) as [_|?]; [|lia].
  simpl. now rewrite Nat2Z.id.
Qed.

Lemma index_from_end (len i : nat) :
  (0 < i <= len)%nat -> np.index len (- Z.of_nat i) = Ok (len - i)%nat.
Proof.
  intros Hi. unfold np.index.
  destruct (Z.ltb_spec (- Z.of_nat i) 0) as [_|?]; [|lia].
  destruct (Z.leb_spec 0 (- Z.of_nat i + Z.of_nat len)) as [_|?]; [|lia].
  destruct (Z.ltb_spec (- Z.of_nat i + Z.of_nat len) (Z.of_nat len))
    as [_|?]; [|lia].
  simpl. f_equal. lia.
Qed.

Lemma index_outside (len : nat) (i : Z) :
  i < - Z.of_nat len \/ Z.of_nat len <= i ->
  np.index len i = Raise IndexError.
Proof.
  intros Hi. unfold np.index.
  destruct (Z.ltb_spec i 0);
    [ destruct (Z.leb_spec 0 (i + Z.of_nat len)); [|reflexivity]
    | destruct (Z.leb_spec 0 i); [|reflexivity] ].
  - destruct (Z.ltb_spec (i + Z.of_nat len) (Z.of_nat len));
      [lia | reflexivity].
  - destruct (Z.ltb_spec i (Z.of_nat len)); [lia | reflexivity].
Qed.

Lemma getitem_nat (a : np.ndarray) (i : nat) (x : float) :
  a !! i = Some x -> np.getitem a (Z.of_nat i) = Ok x.
Proof.
  intros Hx. unfold np.getitem.
  rewrite index_nat by (eapply lookup_lt_Some; eassumption).
  simpl. now rewrite Hx.
Qed.

Lemma setitem_nat (a : np.ndarray) (i : nat) (x : float) :
  (i < length a)%nat -> np.setitem a (Z.of_nat i) x = Ok (<[i := x]> a).
Proof.
  intros Hi. unfold np.setitem. now rewrite index_nat.
Qed.

Lemma getitem_from_end (a : np.ndarray) (i : nat) (x : float) :
  (0 < i <= length a)%nat -> a !! (length a - i)%nat = Some x ->
  np.getitem a (- Z.of_nat i) = Ok x.
Proof.
  intros Hi Hx. unfold np.getitem.
  rewrite index_from_end by assumption. simpl. now rewrite Hx.
Qed.

Lemma setitem_from_end (a : np.ndarray) (i : nat) (x : float) :
  (0 < i <= length a)%nat ->
  np.setitem a (- Z.of_nat i) x = Ok (<[(length a - i)%nat := x]> a).
Proof.
  intros Hi. unfold np.setitem. now rewrite index_from_end.
Qed.

Lemma zeros_nat (n : nat) :
  np.zeros (Z.of_nat n) = Ok (replicate n 0%float).
Proof.
  unfold np.zeros.
  destruct (Z.ltb_spec (Z.of_nat n) 0); [lia|]. now rewrite Nat2Z.id.
Qed.

End np_facts.

(** ** The loop, one list of indices after another *)

Lemma range_succ (j : nat) :
  range (Z.of_nat (S j)) = range (Z.of_nat j) ++ [Z.of_nat j].
Proof.
  unfold range. rewrite !Nat2Z.id, seq_S, map_app. reflexivity.
Qed.

Lemma for_each_app {S : Type} (body : Z -> S -> result S) ks1 ks2 s :
  for_each (ks1 ++ ks2) body s =
  (s' ← for_each ks1 body s; for_each ks2 body s').
Proof.
  revert s. induction ks1 as [|k ks1 IH]; intros s; simpl.
  - reflexivity.
  - destruct (body k s) as [s1|x]; simpl; [apply IH | reflexivity].
Qed.

(** ** One iteration *)

Section Driver_facts.

Variables T_ambient T_set T_initial tau k_heat Kp Ki Kd dt : float.
Variable n_steps : Z.

Local Open Scope float_scope.

Local Abbreviation init := (init T_set T_initial n_steps).
Local Abbreviation loop_body := (loop_body T_ambient T_set tau k_heat Kp Ki Kd dt).
Local Abbreviation finish := (finish T_set).
Local Abbreviation loop_prefix :=
  (loop_prefix T_ambient T_set T_initial tau k_heat Kp Ki Kd dt n_steps).
Local Abbreviation simulate_pid_room :=
  (simulate_pid_room T_ambient T_set T_initial tau k_heat Kp Ki Kd dt n_steps).
Local Abbreviation accumulate := (accumulate dt).
Local Abbreviation records_step :=
  (records_step T_ambient T_set tau k_heat Kp Ki Kd dt).
Local Abbreviation loop_inv :=
  (loop_inv T_ambient T_set T_initial tau k_heat Kp Ki Kd dt n_steps).
Local Abbreviation trace_spec :=
  (trace_spec T_ambient T_set T_initial tau k_heat Kp Ki Kd dt n_steps).
Local Abbreviation well_shaped := (well_shaped T_initial n_steps).
Local Abbreviation last_sample_filled := (last_sample_filled T_set n_steps).
Local Abbreviation euler_steps :=
  (euler_steps T_ambient tau k_heat dt n_steps).
Local Abbreviation time_steps := (time_steps dt n_steps).
Local Abbreviation loop_controls_clipped := (loop_controls_clipped n_steps).
Local Abbreviation controller_step := (controller_step T_set Kp Ki Kd dt).

(** With cells [j] and [j + 1] inside the arrays, iteration [j] raises
    nothing and writes exactly four cells and the two scalars. *)
Lemma loop_body_ok (j : nat) (s : locals) (T_k t_k : float) :
  (S j < length (t s))%nat -> (S j < length (T s))%nat ->
  (j < length (u s))%nat -> (j < length (e s))%nat ->
  T s !! j = Some T_k -> t s !! j = Some t_k ->
  let error := T_set - T_k in
  let integral' := integral s + error * dt in
  let u_k := np.clip (Kp * error + Ki * integral'
                      + Kd * ((error - prev_error s) / dt)) 0 100 in
  loop_body (Z.of_nat j) s
  = Ok (Locals (<[S j := t_k + dt]> (t s))
               (<[S j := T_k + (- (T_k - T_ambient) / tau
                                + k_heat * (u_k / 100)) * dt]> (T s))
               (<[j := u_k]> (u s))
               (<[j := error]> (e s))
               integral' error).
Proof.
  intros Ht HT Hu He HTk Htk. unfold loop_body. cbv beta zeta.
  replace (Z.of_nat j + 1)%Z with (Z.of_nat (S j)) by lia.
  repeat first
    [ rewrite bind_Ok
    | rewrite (np_facts.getitem_nat _ _ _ HTk)
    | rewrite (np_facts.getitem_nat _ _ _ Htk)
    | rewrite (np_facts.getitem_nat _ j _ (list_lookup_insert_eq _ _ _ Hu))
    | rewrite np_facts.setitem_nat by assumption ].
  reflexivity.
Qed.

Lemma accumulate_snoc (errors : list float) (err : float) :
  accumulate (errors ++ [err]) = accumulate errors + err * dt.
Proof. unfold accumulate. now rewrite fold_left_app. Qed.

(** ** The invariant holds on entry and is kept by every iteration *)

Hypothesis n_steps_ge_2 : (2 <= n_steps)%Z.

Lemma init_ok : exists s0, init = Ok s0 /\ loop_inv 0 s0.
Proof.
  destruct (Z.to_nat n_steps) as [|N] eqn:EN; [lia|].
  assert (Hn : n_steps = Z.of_nat (S N)) by lia.
  eexists. split.
  - unfold init. rewrite Hn, np_facts.zeros_nat, !bind_Ok.
    rewrite (np_facts.setitem_nat _ 0), bind_Ok
      by (rewrite length_replicate; lia).
    rewrite (np_facts.getitem_nat _ 0 T_initial), bind_Ok
      by (apply list_lookup_insert_eq; rewrite length_replicate; lia).
    rewrite (np_facts.setitem_nat _ 0), bind_Ok
      by (rewrite length_replicate; lia).
    rewrite (np_facts.getitem_nat _ 0 (T_set - T_initial)), bind_Ok
      by (apply list_lookup_insert_eq; rewrite length_replicate; lia).
    reflexivity.
  - unfold loop_inv; rewrite EN; simpl.
    rewrite !length_replicate.
    repeat split; try reflexivity. intros k Hk. lia.
Qed.

Lemma loop_inv_step (j : nat) (s : locals) :
  (S j < Z.to_nat n_steps)%nat -> loop_inv j s ->
  exists s', loop_body (Z.of_nat j) s = Ok s' /\ loop_inv (S j) s'.
Proof.
  intros Hj (Lt & LT & Lu & Le & Ht0 & HT0 & He0 & Hint & Hprev & Hrec).
  destruct (lookup_lt_is_Some_2 (T s) j) as [T_k HTk]; [lia|].
  destruct (lookup_lt_is_Some_2 (t s) j) as [t_k Htk]; [lia|].
  eexists. split.
  { apply (loop_body_ok j s T_k t_k); (lia || assumption). }
  assert (Hacc : accumulate (take (S j) (<[j:=T_set - T_k]> (e s)))
                 = integral s + (T_set - T_k) * dt).
  { rewrite (take_S_r _ _ (T_set - T_k))
      by (apply list_lookup_insert_eq; lia).
    rewrite take_insert_ge, accumulate_snoc by lia. now rewrite Hint. }
  unfold loop_inv; simpl. rewrite !length_insert.
  repeat split; try assumption.
  - rewrite list_lookup_insert_ne by lia. assumption.
  - rewrite list_lookup_insert_ne by lia. assumption.
  - destruct j as [|j].
    + rewrite list_lookup_insert_eq by lia. congruence.
    + rewrite list_lookup_insert_ne by lia. assumption.
  - symmetry. exact Hacc.
  - apply list_lookup_insert_eq. lia.
  - intros k Hk. destruct (decide (k = j)) as [->|Hne].
    + exists T_k, t_k. eexists. exists (prev_error s).
      rewrite !(list_lookup_insert_ne _ (S j) j) by lia.
      rewrite !(list_lookup_insert_eq _ (S j)) by lia.
      rewrite !(list_lookup_insert_eq _ j) by lia.
      rewrite Hacc.
      split; [assumption|]. split; [assumption|]. split; [reflexivity|].
      split; [|cbv zeta; repeat split; reflexivity].
      destruct j as [|j]; simpl.
      * rewrite list_lookup_insert_eq by lia.
        simpl in Hprev. congruence.
      * rewrite list_lookup_insert_ne by lia. exact Hprev.
    + destruct (Hrec k) as (T_k' & t_k' & u_k' & prev & H1 & H2 & H3 & H4 & H5);
        [lia|].
      cbv zeta in H5. destruct H5 as (H5 & H6 & H7 & H8).
      exists T_k', t_k', u_k', prev. cbv zeta.
      rewrite !(list_lookup_insert_ne _ (S j)) by lia.
      rewrite !(list_lookup_insert_ne _ j) by lia.
      rewrite take_insert_ge by lia.
      repeat split; assumption.
Qed.

Lemma loop_prefix_succ (j : nat) :
  loop_prefix (Z.of_nat (S j))
  = (s ← loop_prefix (Z.of_nat j); loop_body (Z.of_nat j) s).
Proof.
  unfold loop_prefix. rewrite range_succ.
  destruct init as [s0|x]; [|reflexivity].
  rewrite !bind_Ok, for_each_app.
  destruct (for_each _ _ s0) as [s|x]; [|reflexivity].
  rewrite !bind_Ok. simpl. now destruct (loop_body _ s).
Qed.

Lemma loop_prefix_ok (j : nat) :
  (j < Z.to_nat n_steps)%nat ->
  exists s, loop_prefix (Z.of_nat j) = Ok s /\ loop_inv j s.
Proof.
  induction j as [|j IH]; intros Hj.
  - destruct init_ok as (s0 & E0 & I0). exists s0. split; [|exact I0].
    unfold loop_prefix. now rewrite E0.
  - destruct IH as (s & Es & Is); [lia|].
    destruct (loop_inv_step j s Hj Is) as (s' & Eb & Is').
    exists s'. split; [|exact Is'].
    now rewrite loop_prefix_succ, Es, bind_Ok.
Qed.

(** ** After the loop *)

Lemma finish_ok (s : locals) (T_last u_prev : float) :
  let N := Z.to_nat n_steps in
  length (T s) = N -> length (u s) = N -> length (e s) = N ->
  T s !! (N - 1)%nat = Some T_last ->
  u s !! (N - 2)%nat = Some u_prev ->
  finish s = Ok (t s, T s, <[(N - 1)%nat := u_prev]> (u s),
                 <[(N - 1)%nat := T_set - T_last]> (e s)).
Proof.
  intros N LT Lu Le HT Hu. unfold finish.
  change (-1)%Z with (- Z.of_nat 1)%Z. change (-2)%Z with (- Z.of_nat 2)%Z.
  assert (2 <= N)%nat by (unfold N; lia).
  rewrite (np_facts.getitem_from_end (T s) 1 T_last), bind_Ok
    by (rewrite ?LT; (lia || assumption)).
  rewrite np_facts.setitem_from_end, bind_Ok by lia.
  rewrite (np_facts.getitem_from_end (u s) 2 u_prev), bind_Ok
    by (rewrite ?Lu; (lia || assumption)).
  rewrite np_facts.setitem_from_end, bind_Ok by lia.
  now rewrite Lu, Le.
Qed.

Lemma simulate_unfold :
  simulate_pid_room = (s ← loop_prefix (n_steps - 1); finish s).
Proof.
  unfold simulate_pid_room, loop_prefix.
  destruct init as [s0|x]; [|reflexivity]. now rewrite !bind_Ok.
Qed.

(** Every call with [n_steps >= 2] returns a trace, and the trace is as
    [trace_spec] says. *)
Lemma simulate_ok :
  exists tr, simulate_pid_room = Ok tr /\ trace_spec tr.
Proof.
  set (N := Z.to_nat n_steps).
  assert (HN : (2 <= N)%nat) by (unfold N; lia).
  destruct (loop_prefix_ok (N - 1)) as (s & Es & Is); [fold N; lia|].
  destruct Is as (Lt & LT & Lu & Le & Ht0 & HT0 & He0 & Hint & Hprev & Hrec).
  fold N in Lt, LT, Lu, Le.
  destruct (lookup_lt_is_Some_2 (T s) (N - 1)) as [T_last HT]; [lia|].
  destruct (lookup_lt_is_Some_2 (u s) (N - 2)) as [u_prev Hu]; [lia|].
  eexists. split.
  - rewrite simulate_unfold.
    replace (n_steps - 1)%Z with (Z.of_nat (N - 1)) by (unfold N; lia).
    rewrite Es, bind_Ok. apply (finish_ok s T_last u_prev); assumption.
  - unfold trace_spec. fold N. rewrite !length_insert.
    repeat split; try assumption.
    + intros k Hk.
      destruct (Hrec k) as (T_k & t_k & u_k & prev & H1 & H2 & H3 & H4 & H5);
        [lia|].
      cbv zeta in H5. destruct H5 as (H5 & H6 & H7 & H8).
      exists T_k, t_k, u_k, prev. cbv zeta.
      rewrite !(list_lookup_insert_ne _ (N - 1)) by lia.
      rewrite take_insert_ge by lia.
      repeat split; assumption.
    + exists T_last, u_prev.
      rewrite !(list_lookup_insert_eq _ (N - 1)) by lia.
      rewrite list_lookup_insert_ne by lia.
      repeat split; assumption.
Qed.

(** ** The claims about a returned trace *)

(** C2. With [n_steps >= 2] the call returns a trace whose last sample
    is filled asymmetrically: [e[n_steps-1]] is [T_set - T[n_steps-1]],
    computed from the last temperature, and [u[n_steps-1]] is the value
    of [u[n_steps-2]], repeated.  Nothing is asked of [dt], [tau] and
    [k_heat], so this covers every valid configuration. *)
Theorem fill_policy :
  exists tr, simulate_pid_room = Ok tr /\ last_sample_filled tr.
Proof.
  destruct simulate_ok as ([[[t T] u] e] & E & H).
  exists (t, T, u, e). split; [exact E|].
  unfold trace_spec in H. cbv zeta in H. unfold last_sample_filled.
  tauto.
Qed.

(** C4. With [n_steps >= 2], for every [k <= n_steps - 2] the returned
    temperatures satisfy
    [T[k+1] = T[k] + (-(T[k] - T_ambient)/tau + k_heat*(u[k]/100)) * dt]
    where [u[k]] is the clipped control value: a forward Euler step,
    stored as computed, with no clamp on the temperature. *)
Theorem plant_update :
  exists tr, simulate_pid_room = Ok tr /\ euler_steps tr.
Proof.
  destruct simulate_ok as ([[[t T] u] e] & E & H).
  exists (t, T, u, e). split; [exact E|].
  destruct H as (_ & _ & _ & _ & _ & _ & Hrec & _).
  intros k Hk.
  destruct (Hrec k Hk) as (T_k & t_k & u_k & prev & H1 & _ & H3 & _ & H5).
  cbv zeta in H5. destruct H5 as (_ & H6 & H7 & _).
  exists T_k, u_k. eexists. repeat split; eassumption.
Qed.

(** C5, as the code has it.  With [n_steps >= 2], every control value
    that the loop writes, [u[k]] for [k < n_steps - 1], is what
    [np.clip(u_raw, 0.0, 100.0)] returned, and so lies between 0 and 100
    unless it is NaN. *)
Theorem loop_controls_saturated :
  exists tr, simulate_pid_room = Ok tr /\ loop_controls_clipped tr.
Proof.
  destruct simulate_ok as ([[[t T] u] e] & E & H).
  exists (t, T, u, e). split; [exact E|].
  destruct H as (_ & _ & _ & _ & _ & _ & Hrec & _).
  intros k u_k Hk Hu.
  destruct (Hrec k Hk) as (T_k & t_k & u_k' & prev & _ & _ & H3 & _ & H5).
  cbv zeta in H5. destruct H5 as (_ & H6 & _).
  assert (Hsame : u_k' = u_k) by congruence. rewrite Hsame in H6.
  split; [eexists; exact H6|].
  rewrite H6. apply clipped_percentage.
Qed.

(** C6. With [n_steps >= 2] the call returns four arrays of exactly
    [n_steps] cells each, with [t[0] = 0] and [T[0] = T_initial]. *)
Theorem trace_shape :
  exists tr, simulate_pid_room = Ok tr /\ well_shaped tr.
Proof.
  destruct simulate_ok as ([[[t T] u] e] & E & H).
  exists (t, T, u, e). split; [exact E|].
  unfold trace_spec in H. cbv zeta in H. unfold well_shaped.
  tauto.
Qed.

(** C7, as the code has it.  With [n_steps >= 2], [t[0] = 0] and every
    later time is the float64 sum [t[k+1] = t[k] + dt], rounded once
    per step. *)
Theorem time_grid :
  exists tr, simulate_pid_room = Ok tr /\ time_steps tr.
Proof.
  destruct simulate_ok as ([[[t T] u] e] & E & H).
  exists (t, T, u, e). split; [exact E|].
  destruct H as (_ & _ & _ & _ & Ht0 & _ & Hrec & _).
  split; [exact Ht0|]. intros k Hk.
  destruct (Hrec k Hk) as (T_k & t_k & u_k & prev & _ & H2 & _ & _ & H5).
  cbv zeta in H5. destruct H5 as (_ & _ & _ & H8).
  exists t_k. split; assumption.
Qed.

(** C10, as the code has it.  With [n_steps >= 2], every cell of the
    returned [u], the last one included, lies between 0 and 100 unless
    it is NaN: the last cell repeats a value that [np.clip] returned. *)
Theorem all_controls_saturated :
  exists tr, simulate_pid_room = Ok tr /\ controls_in_range tr.
Proof.
  destruct simulate_ok as ([[[t T] u] e] & E & H).
  exists (t, T, u, e). split; [exact E|].
  destruct H as (_ & _ & Lu & _ & _ & _ & Hrec & Hlast).
  assert (Hloop : forall k u_k, (S k < Z.to_nat n_steps)%nat ->
            u !! k = Some u_k -> PrimFloat.is_nan u_k = false ->
            percentage u_k).
  { intros k u_k Hk Hu Hnan.
    destruct (Hrec k Hk) as (T_k & t_k & u_k' & prev & _ & _ & H3 & _ & H5).
    cbv zeta in H5. destruct H5 as (_ & H6 & _).
    assert (Hsame : u_k' = u_k) by congruence. rewrite Hsame in H6.
    rewrite H6 in Hnan |- *. now apply clipped_percentage. }
  intros k u_k Hu Hnan.
  pose proof (lookup_lt_Some _ _ _ Hu) as Hlt.
  destruct (decide (S k < Z.to_nat n_steps)%nat) as [Hk|Hk].
  - now apply (Hloop k).
  - destruct Hlast as (T_last & u_prev & _ & _ & Hprev & Hu_last).
    replace (Z.to_nat n_steps - 1)%nat with k in Hu_last by lia.
    assert (Hsame : u_prev = u_k) by congruence. rewrite Hsame in Hprev.
    apply (Hloop (Z.to_nat n_steps - 2)%nat); [lia | assumption..].
Qed.

(** ** The claim about the controller *)

(** C3. With [n_steps >= 2], every iteration [k <= n_steps - 2] runs,
    and with [error = T_set - T[k]] it adds [error * dt] to the integral
    accumulator, takes the derivative [(error - prev_error) / dt]
    against the error of the iteration before, stores
    [clip(Kp*error + Ki*integral + Kd*derivative, 0, 100)] in [u[k]]
    and then sets [prev_error = error].  The accumulator is the sum of
    all errors so far times [dt], whether or not [u_raw] was inside
    [0, 100]: saturation does not feed back into the integral. *)
Theorem controller_update (k : nat) :
  (S k < Z.to_nat n_steps)%nat ->
  exists s s',
    loop_prefix (Z.of_nat k) = Ok s /\
    loop_prefix (Z.of_nat (S k)) = Ok s' /\
    controller_step k s s'.
Proof.
  intros Hk.
  destruct (loop_prefix_ok k) as (s & Es & Is); [lia|].
  destruct (loop_inv_step k s Hk Is) as (s' & Eb & Is').
  exists s, s'. split; [exact Es|]. split.
  { now rewrite loop_prefix_succ, Es, bind_Ok. }
  destruct Is as (Lt & LT & Lu & Le & _).
  destruct (lookup_lt_is_Some_2 (T s) k) as [T_k HTk]; [lia|].
  destruct (lookup_lt_is_Some_2 (t s) k) as [t_k Htk]; [lia|].
  rewrite (loop_body_ok k s T_k t_k) in Eb by (lia || assumption).
  injection Eb as <-.
  destruct Is' as (_ & _ & _ & _ & _ & _ & _ & Hint & _).
  exists T_k. split; [exact HTk|]. cbv zeta. simpl in *.
  repeat split; try assumption; apply list_lookup_insert_eq; lia.
Qed.

End Driver_facts.

(** ** Calls as runs of the transition system *)

Section Invocations.

Variables T_ambient T_set T_initial tau k_heat Kp Ki Kd dt : float.
Variable n_steps : Z.

Local Abbreviation init := (init T_set T_initial n_steps).
Local Abbreviation loop_body :=
  (loop_body T_ambient T_set tau k_heat Kp Ki Kd dt).
Local Abbreviation finish := (finish T_set).
Local Abbreviation simulate_pid_room :=
  (simulate_pid_room T_ambient T_set T_initial tau k_heat Kp Ki Kd dt n_steps).
Local Abbreviation step :=
  (step T_ambient T_set T_initial tau k_heat Kp Ki Kd dt n_steps).
Local Abbreviation invocation :=
  (invocation T_ambient T_set T_initial tau k_heat Kp Ki Kd dt n_steps).

(** The loop of the transition system follows [for_each]. *)
Lemma loop_run (len a : nat) (s : locals) :
  (a + len)%nat = Z.to_nat (n_steps - 1) ->
  rtc step (Looping (Z.of_nat a) s)
    (outcome (s' ← for_each (map Z.of_nat (seq a len)) loop_body s;
              finish s')).
Proof.
  revert a s. induction len as [|len IH]; intros a s Hlen; simpl.
  - rewrite ?bind_Ok. apply rtc_once.
    destruct (finish s) as [tr|x] eqn:E; simpl.
    + apply step_leave; [lia | exact E].
    + apply step_leave_raise; [lia | exact E].
  - destruct (loop_body (Z.of_nat a) s) as [s1|x] eqn:E.
    + rewrite ?bind_Ok. eapply rtc_l.
      * apply step_iterate; [lia | exact E].
      * replace (Z.of_nat a + 1)%Z with (Z.of_nat (S a)) by lia.
        apply IH. lia.
    + rewrite ?bind_Raise. apply rtc_once.
      apply step_iterate_raise; [lia | exact E].
Qed.

(** What the function computes is the outcome of a run. *)
Lemma simulate_invocation : invocation simulate_pid_room.
Proof.
  unfold invocation, simulate_pid_room.
  destruct init as [s0|x] eqn:E.
  - rewrite bind_Ok. eapply rtc_l; [apply step_enter; exact E|].
    apply (loop_run _ 0). lia.
  - rewrite bind_Raise. apply rtc_once. now apply step_enter_raise.
Qed.

End Invocations.

(** ** The claim about validation *)

(** A negative [n_steps] is refused by [np.zeros] (line 179). *)
Lemma simulate_negative
    (T_ambient T_set T_initial tau k_heat Kp Ki Kd dt : float) (n_steps : Z) :
  (n_steps < 0)%Z ->
  simulate_pid_room T_ambient T_set T_initial tau k_heat Kp Ki Kd dt n_steps
  = Raise ValueError.
Proof.
  intros Hneg. unfold simulate_pid_room, init, np.zeros.
  destruct (Z.ltb_spec n_steps 0); [|lia]. now rewrite !bind_Raise.
Qed.

(** With no sample [T[0]] is outside the array (line 183); with a single
    one the loop is empty and [u[-2]] is outside (line 218). *)
Lemma simulate_too_short
    (T_ambient T_set T_initial tau k_heat Kp Ki Kd dt : float) (n_steps : Z) :
  (0 <= n_steps <= 1)%Z ->
  simulate_pid_room T_ambient T_set T_initial tau k_heat Kp Ki Kd dt n_steps
  = Raise IndexError.
Proof.
  intros Hn. assert (Hcases : n_steps = 0%Z \/ n_steps = 1%Z) by lia.
  destruct Hcases as [-> | ->]; vm_compute; reflexivity.
Qed.

(** C1, as the code has it.  [simulate_pid_room] checks none of its
    arguments.  What a call with fewer than two samples raises is what
    numpy raises: [ValueError] from [np.zeros] for a negative [n_steps],
    [IndexError] for [n_steps] 0 and 1.  The float arguments, [dt],
    [tau] and [k_heat] among them, play no part: a call that raises
    raises the same exception with any other float arguments, zero and
    negative ones too. *)
Theorem no_validation
    (T_ambient T_set T_initial tau k_heat Kp Ki Kd dt : float) (n_steps : Z) :
  ((n_steps < 0)%Z ->
   simulate_pid_room T_ambient T_set T_initial tau k_heat Kp Ki Kd dt n_steps
   = Raise ValueError) /\
  ((0 <= n_steps <= 1)%Z ->
   simulate_pid_room T_ambient T_set T_initial tau k_heat Kp Ki Kd dt n_steps
   = Raise IndexError) /\
  (forall (T_ambient' T_set' T_initial' tau' k_heat' Kp' Ki' Kd' dt' : float)
          (x : exn),
     simulate_pid_room T_ambient' T_set' T_initial' tau' k_heat' Kp' Ki' Kd'
       dt' n_steps = Raise x ->
     simulate_pid_room T_ambient T_set T_initial tau k_heat Kp Ki Kd dt n_steps
     = Raise x).
Proof.
  split; [apply simulate_negative|]. split; [apply simulate_too_short|].
  intros T_ambient' T_set' T_initial' tau' k_heat' Kp' Ki' Kd' dt' x Hx.
  destruct (Z_lt_le_dec n_steps 0) as [Hneg|Hpos].
  - rewrite simulate_negative in Hx |- * by exact Hneg. exact Hx.
  - destruct (Z_lt_le_dec n_steps 2) as [Hsmall|Hbig].
    + rewrite simulate_too_short in Hx |- * by lia. exact Hx.
    + destruct (simulate_ok T_ambient' T_set' T_initial' tau' k_heat' Kp' Ki'
                  Kd' dt' n_steps Hbig) as (tr & E & _).
      congruence.
Qed.

(** ** Scenarios, computed *)

Lemma strictly_rising_lookup (l : list float) :
  strictly_rising l = true ->
  forall k a b, l !! k = Some a -> l !! S k = Some b ->
    PrimFloat.ltb a b = true.
Proof.
  induction l as [|x l IH]; intros Hl k a b Ha Hb; [discriminate|].
  destruct l as [|y l]; [discriminate|].
  cbn [strictly_rising] in Hl. apply andb_prop in Hl as [Hxy Hrest].
  destruct k as [|k].
  - simpl in Ha, Hb. congruence.
  - exact (IH Hrest k a b Ha Hb).
Qed.

Lemma all_below_lookup (bound : float) (l : list float) :
  all_below bound l = true ->
  forall k a, l !! k = Some a -> PrimFloat.ltb a bound = true.
Proof.
  induction l as [|x l IH]; intros Hl k a Ha; [discriminate|].
  simpl in Hl. apply andb_prop in Hl as [Hx Hrest].
  destruct k as [|k].
  - simpl in Ha. congruence.
  - exact (IH Hrest k a Ha).
Qed.

Local Open Scope float_scope.

(** C8. In the pure-P scenario ([Kp = 1.5], [Ki = Kd = 0], ambient 20,
    set point 22, start 18, [tau = 60], [k_heat = 0.5], [dt = 1], 301
    samples) the temperature rises at every step and stays below 20.625,
    which is below the set point (in exact arithmetic the limit is
    598/29 = 20.62...); the last sample [T[300]] lies in [20.5, 22.0]
    and is greater than [T[0]]. *)
Theorem pure_p_scenario :
  exists t T u e,
    pure_p_run = Ok (t, T, u, e) /\
    (forall k a b, T !! k = Some a -> T !! S k = Some b -> (a <? b) = true) /\
    (forall k a, T !! k = Some a -> (a <? 20.625) = true) /\
    (20.625 <? 22) = true /\
    exists T_0 T_300,
      T !! 0%nat = Some T_0 /\ T !! 300%nat = Some T_300 /\
      (20.5 <=? T_300) = true /\ (T_300 <=? 22) = true /\
      (T_0 <? T_300) = true.
Proof.
  do 4 eexists. split; [vm_compute; reflexivity|].
  split; [apply strictly_rising_lookup; vm_compute; reflexivity|].
  split; [apply all_below_lookup; vm_compute; reflexivity|].
  split; [reflexivity|].
  do 2 eexists. split; [reflexivity|]. split; [reflexivity|].
  repeat split; vm_compute; reflexivity.
Qed.

(** With [dt = 1], as in the pure-P scenario, no sum [t[k] + dt] is
    rounded and the 301 times are exactly one second apart. *)
Lemma pure_p_times_evenly_spaced :
  exists t T u e,
    pure_p_run = Ok (t, T, u, e) /\ evenly_spaced 1 t = true.
Proof.
  do 4 eexists. split; vm_compute; reflexivity.
Qed.

(** Integral windup at work: with [Kp = 5], [Ki = 1] and a set point 30
    degrees above the start, both control values written by the first two
    iterations are clipped to 100, and the accumulator has nevertheless
    taken both errors, [30] and [29.1...], in. *)
Lemma saturated_prefix_winds_up :
  exists s,
    saturated_prefix = Ok s /\
    u s = [100; 100; 0] /\
    e s !! 0%nat = Some 30 /\
    (59 <? integral s) = true.
Proof.
  eexists. split; [vm_compute; reflexivity|].
  repeat split; vm_compute; reflexivity.
Qed.

(** ** Where the code departs from the claims *)

(** Against C1: with [dt = 0] (and three samples) the call raises
    nothing.  It returns a trace in which the division [0.0 / 0.0] of
    the derivative has turned every later value into NaN. *)
Lemma zero_dt_returns :
  zero_dt_run = Ok ([0; 0; 0], [18; nan; nan], [nan; nan; nan], [4; nan; nan]).
Proof. vm_compute. reflexivity. Qed.

(** Against C5: [tau = 1], [dt = 5], [k_heat = 0.5] and 520 samples are a
    valid configuration.  The Euler scheme multiplies the distance to the
    ambient temperature by about [-4] at every step, the temperature
    overflows, and [u[511]], with [511 < 519], is NaN: it is not between
    0 and 100. *)
Lemma unstable_control_not_in_range :
  exists t T u e u_k,
    unstable_run 520 = Ok (t, T, u, e) /\
    u !! 511%nat = Some u_k /\
    PrimFloat.is_nan u_k = true /\
    (0 <=? u_k) = false /\ (u_k <=? 100) = false.
Proof.
  do 5 eexists. split; [vm_compute; reflexivity|].
  split; [reflexivity|]. repeat split; vm_compute; reflexivity.
Qed.

(** The same in two samples: the first error [T_set - T[0]] is
    infinite, the derivative is [(inf - inf) / dt], and [u[0]] is NaN. *)
Lemma overflow_control_not_in_range :
  overflow_run
  = Ok ([0; 1], [-0x1.fffffffffffffp+1023; nan], [nan; nan], [infinity; nan]).
Proof. vm_compute. reflexivity. Qed.

(** Against C7: with [dt = 0.1] and four samples the times are
    [0, 0.1, 0.2, 0.30000000000000004], and [t[3] - t[2]] is
    [0.10000000000000003], not [dt]. *)
Lemma tenth_step_not_exact :
  exists t T u e t_2 t_3,
    tenth_run = Ok (t, T, u, e) /\
    t !! 2%nat = Some t_2 /\ t !! 3%nat = Some t_3 /\
    (t_3 - t_2 =? one_tenth) = false /\
    t_3 - t_2 <> one_tenth.
Proof.
  do 6 eexists. split; [vm_compute; reflexivity|].
  split; [reflexivity|]. split; [reflexivity|].
  split; [vm_compute; reflexivity|].
  intros H. apply (f_equal (fun x => x =? one_tenth)) in H.
  vm_compute in H. discriminate.
Qed.

(** Against C10: in the same unstable run the last cell [u[519]] repeats
    the NaN of [u[518]]. *)
Lemma unstable_last_control_not_in_range :
  exists t T u e u_last,
    unstable_run 520 = Ok (t, T, u, e) /\
    u !! 519%nat = Some u_last /\
    PrimFloat.is_nan u_last = true /\
    (0 <=? u_last) = false /\ (u_last <=? 100) = false.
Proof.
  do 5 eexists. split; [vm_compute; reflexivity|].
  split; [reflexivity|]. repeat split; vm_compute; reflexivity.
Qed.

(** ** The theorems at the default configuration of the application *)

Lemma no_validation_short_runs :
  simulate_pid_room 20 22 18 60 0.5 1.5 one_tenth 0 1 (-1) = Raise ValueError /\
  simulate_pid_room 20 22 18 60 0.5 1.5 one_tenth 0 1 1 = Raise IndexError /\
  simulate_pid_room 20 22 18 0 0 1.5 one_tenth 0 0 1 = Raise IndexError.
Proof.
  split; [|split].
  - apply (no_validation 20 22 18 60 0.5 1.5 one_tenth 0 1 (-1)). lia.
  - apply (no_validation 20 22 18 60 0.5 1.5 one_tenth 0 1 1). lia.
  - apply (no_validation 20 22 18 0 0 1.5 one_tenth 0 0 1)
      with (T_ambient' := 20%float) (T_set' := 22%float)
           (T_initial' := 18%float) (tau' := 60%float)
           (k_heat' := 0.5%float) (Kp' := 1.5%float) (Ki' := one_tenth)
           (Kd' := 0%float) (dt' := 1%float).
    vm_compute. reflexivity.
Defined.

Lemma fill_policy_default :
  (2 <= 301)%Z /\
  exists tr,
    simulate_pid_room 20 22 18 60 0.5 1.5 one_tenth 0 1 301 = Ok tr /\
    last_sample_filled 22 301 tr.
Proof. split; [lia | apply fill_policy; lia]. Defined.

Lemma plant_update_default :
  (2 <= 301)%Z /\
  exists tr,
    simulate_pid_room 20 22 18 60 0.5 1.5 one_tenth 0 1 301 = Ok tr /\
    euler_steps 20 60 0.5 1 301 tr.
Proof. split; [lia | apply plant_update; lia]. Defined.

Lemma loop_controls_saturated_default :
  (2 <= 301)%Z /\
  exists tr,
    simulate_pid_room 20 22 18 60 0.5 1.5 one_tenth 0 1 301 = Ok tr /\
    loop_controls_clipped 301 tr.
Proof. split; [lia | apply loop_controls_saturated; lia]. Defined.

Lemma trace_shape_default :
  (2 <= 301)%Z /\
  exists tr,
    simulate_pid_room 20 22 18 60 0.5 1.5 one_tenth 0 1 301 = Ok tr /\
    well_shaped 18 301 tr.
Proof. split; [lia | apply trace_shape; lia]. Defined.

Lemma time_grid_default :
  (2 <= 301)%Z /\
  exists tr,
    simulate_pid_room 20 22 18 60 0.5 1.5 one_tenth 0 1 301 = Ok tr /\
    time_steps 1 301 tr.
Proof. split; [lia | apply time_grid; lia]. Defined.

Lemma all_controls_saturated_default :
  (2 <= 301)%Z /\
  exists tr,
    simulate_pid_room 20 22 18 60 0.5 1.5 one_tenth 0 1 301 = Ok tr /\
    controls_in_range tr.
Proof. split; [lia | apply all_controls_saturated; lia]. Defined.

Lemma controller_update_default :
  (2 <= 301)%Z /\ (S 7 < Z.to_nat 301)%nat /\
  exists s s',
    loop_prefix 20 22 18 60 0.5 1.5 one_tenth 0 1 301 (Z.of_nat 7) = Ok s /\
    loop_prefix 20 22 18 60 0.5 1.5 one_tenth 0 1 301 (Z.of_nat 8) = Ok s' /\
    controller_step 22 1.5 one_tenth 0 1 7 s s'.
Proof.
  split; [lia|]. split; [lia|].
  apply (controller_update 20 22 18 60 0.5 1.5 one_tenth 0 1 301); lia.
Defined.

(** * More about the driver *)

(** ** The whole trace in terms of itself *)

Section Trace_facts.

Variables T_ambient T_set T_initial tau k_heat Kp Ki Kd dt : float.
Variable n_steps : Z.

Local Open Scope float_scope.

Local Abbreviation simulate_pid_room :=
  (simulate_pid_room T_ambient T_set T_initial tau k_heat Kp Ki Kd dt n_steps).

(** In a trace as [trace_spec] describes it, errors follow temperatures. *)
Lemma trace_spec_errors (tr : trace) :
  trace_spec T_ambient T_set T_initial tau k_heat Kp Ki Kd dt n_steps tr ->
  errors_track_temperature T_set tr.
Proof.
  destruct tr as [[[t T] u] e].
  intros (_ & LT & _ & _ & _ & _ & Hrec & Hlast) k T_k HTk.
  pose proof (lookup_lt_Some _ _ _ HTk) as Hlt.
  destruct (decide (S k < Z.to_nat n_steps)%nat) as [Hk|Hk].
  - destruct (Hrec k Hk) as (T_k' & t_k & u_k & prev & H1 & _ & _ & _ & H5).
    cbv zeta in H5. destruct H5 as (H5 & _).
    congruence.
  - destruct Hlast as (T_last & u_prev & H1 & H2 & _).
    replace (Z.to_nat n_steps - 1)%nat with k in H1, H2 by lia.
    congruence.
Qed.

(** In a trace as [trace_spec] describes it, controls follow errors. *)
Lemma trace_spec_controls (tr : trace) :
  trace_spec T_ambient T_set T_initial tau k_heat Kp Ki Kd dt n_steps tr ->
  controls_follow_errors Kp Ki Kd dt n_steps tr.
Proof.
  destruct tr as [[[t T] u] e].
  intros (_ & _ & _ & _ & _ & _ & Hrec & _) k Hk.
  destruct (Hrec k Hk) as (T_k & t_k & u_k & prev & _ & _ & H3 & H4 & H5).
  cbv zeta in H5. destruct H5 as (H5 & H6 & _).
  unfold raw_control. rewrite !nth_lookup, H4, H5. simpl.
  now rewrite H3, H6.
Qed.

Hypothesis n_steps_ge_2 : (2 <= n_steps)%Z.

(** X1. With [n_steps >= 2], the returned error array is the set point
    minus the returned temperature array at every index, the cells
    written by the loop and the last cell alike. *)
Theorem errors_follow_temperatures :
  exists tr, simulate_pid_room = Ok tr /\ errors_track_temperature T_set tr.
Proof.
  destruct (simulate_ok T_ambient T_set T_initial tau k_heat Kp Ki Kd dt
              n_steps n_steps_ge_2) as (tr & E & H).
  exists tr. split; [exact E|]. now apply trace_spec_errors.
Qed.

(** X2. With [n_steps >= 2], every control value written by the loop can
    be recomputed from the returned error array alone:
    [u[k] = clip(Kp*e[k] + Ki*(sum of e[0..k] times dt) +
    Kd*(e[k] - e[k-1])/dt, 0, 100)], where the derivative at [k = 0] is
    taken against [e[0]] itself. *)
Theorem controls_from_errors :
  exists tr,
    simulate_pid_room = Ok tr /\ controls_follow_errors Kp Ki Kd dt n_steps tr.
Proof.
  destruct (simulate_ok T_ambient T_set T_initial tau k_heat Kp Ki Kd dt
              n_steps n_steps_ge_2) as (tr & E & H).
  exists tr. split; [exact E|]. now apply trace_spec_controls.
Qed.

Lemma length_time_axis_from (t0 : float) (n : nat) :
  length (time_axis_from dt t0 n) = n.
Proof.
  revert t0. induction n as [|n IH]; intros t0; simpl; [reflexivity|].
  now rewrite IH.
Qed.

Lemma time_axis_from_next (n : nat) :
  forall t0 i x,
    time_axis_from dt t0 n !! i = Some x -> (S i < n)%nat ->
    time_axis_from dt t0 n !! S i = Some (x + dt).
Proof.
  induction n as [|n IH]; intros t0 i x Hx Hi; [lia|].
  destruct i as [|i]; simpl in *.
  - injection Hx as <-. destruct n as [|n]; [lia|]. reflexivity.
  - apply IH; [exact Hx | lia].
Qed.

(** X3. With [n_steps >= 2], the returned time array is [0], [0 + dt],
    [(0 + dt) + dt], ...: [dt] added [k] times, not [k * dt].  It depends
    on [dt] and [n_steps] only. *)
Theorem times_closed_form :
  exists t T u e,
    simulate_pid_room = Ok (t, T, u, e) /\
    t = time_axis dt (Z.to_nat n_steps).
Proof.
  destruct (simulate_ok T_ambient T_set T_initial tau k_heat Kp Ki Kd dt
              n_steps n_steps_ge_2) as ([[[t T] u] e] & E & H).
  exists t, T, u, e. split; [exact E|].
  destruct H as (Lt & _ & _ & _ & Ht0 & _ & Hrec & _).
  set (N := Z.to_nat n_steps) in *.
  assert (HN : (2 <= N)%nat) by (unfold N; lia).
  assert (Hsame : forall i, (i < N)%nat ->
            exists x, t !! i = Some x /\ time_axis dt N !! i = Some x).
  { induction i as [|i IH]; intros Hi.
    - exists 0. split; [exact Ht0|].
      unfold time_axis. destruct N; [lia | reflexivity].
    - destruct IH as (x & Hx & Hax); [lia|].
      destruct (Hrec i Hi) as (T_k & t_k & u_k & prev & _ & H2 & _ & _ & H5).
      cbv zeta in H5. destruct H5 as (_ & _ & _ & H8).
      exists (x + dt). split; [congruence|].
      now apply time_axis_from_next. }
  apply list_eq. intros i.
  destruct (decide (i < N)%nat) as [Hi|Hi].
  - destruct (Hsame i Hi) as (x & -> & ->). reflexivity.
  - rewrite !lookup_ge_None_2; [reflexivity | |lia].
    unfold time_axis. rewrite length_time_axis_from. lia.
Qed.

End Trace_facts.

(** ** Arithmetic on NaN *)

Lemma add_nan_l (y : float) : (nan + y)%float = nan.
Proof.
  apply Prim2SF_nan_eq. rewrite add_spec.
  change (Prim2SF nan) with S754_nan. reflexivity.
Qed.

Lemma add_nan_r (y : float) : (y + nan)%float = nan.
Proof.
  apply Prim2SF_nan_eq. rewrite add_spec.
  change (Prim2SF nan) with S754_nan. now destruct (Prim2SF y).
Qed.

Lemma sub_nan_l (y : float) : (nan - y)%float = nan.
Proof.
  apply Prim2SF_nan_eq. rewrite sub_spec.
  change (Prim2SF nan) with S754_nan. reflexivity.
Qed.

Lemma sub_nan_r (y : float) : (y - nan)%float = nan.
Proof.
  apply Prim2SF_nan_eq. rewrite sub_spec.
  change (Prim2SF nan) with S754_nan. now destruct (Prim2SF y).
Qed.

Lemma mul_nan_l (y : float) : (nan * y)%float = nan.
Proof.
  apply Prim2SF_nan_eq. rewrite mul_spec.
  change (Prim2SF nan) with S754_nan. reflexivity.
Qed.

Lemma mul_nan_r (y : float) : (y * nan)%float = nan.
Proof.
  apply Prim2SF_nan_eq. rewrite mul_spec.
  change (Prim2SF nan) with S754_nan. now destruct (Prim2SF y).
Qed.

Lemma div_nan_l (y : float) : (nan / y)%float = nan.
Proof.
  apply Prim2SF_nan_eq. rewrite div_spec.
  change (Prim2SF nan) with S754_nan. reflexivity.
Qed.

(** ** NaN in a trace *)

Section NaN_facts.

Variables T_ambient T_set T_initial tau k_heat Kp Ki Kd dt : float.
Variable n_steps : Z.
Hypothesis n_steps_ge_2 : (2 <= n_steps)%Z.

Local Open Scope float_scope.

Local Abbreviation simulate_pid_room :=
  (simulate_pid_room T_ambient T_set T_initial tau k_heat Kp Ki Kd dt n_steps).

(** X6. NaN is absorbing.  With [n_steps >= 2], if the returned
    temperature [T[k]] is NaN at some [k <= n_steps - 2], then every
    temperature, every control value and every error from index [k] on
    is NaN, up to the end of the trace. *)
Theorem nan_absorbing (t T u e : list float) (k : nat) (T_k : float) :
  simulate_pid_room = Ok (t, T, u, e) ->
  (S k < Z.to_nat n_steps)%nat ->
  T !! k = Some T_k -> PrimFloat.is_nan T_k = true ->
  nan_from k (t, T, u, e).
Proof.
  intros E Hk HTk Hnan.
  destruct (simulate_ok T_ambient T_set T_initial tau k_heat Kp Ki Kd dt
              n_steps n_steps_ge_2) as (tr & E' & H).
  rewrite E in E'. injection E' as <-.
  pose proof (trace_spec_errors _ _ _ _ _ _ _ _ _ _ _ H) as Herr.
  destruct H as (Lt & LT & Lu & Le & _ & _ & Hrec & Hlast).
  set (N := Z.to_nat n_steps) in *.
  apply is_nan_eq in Hnan. subst T_k.
  assert (HT : forall d, (k + d < N)%nat -> T !! (k + d)%nat = Some nan).
  { induction d as [|d IH]; intros Hd.
    - now rewrite Nat.add_0_r.
    - destruct (Hrec (k + d)%nat)
        as (T_j & t_j & u_j & prev & H1 & _ & _ & _ & H5); [lia|].
      cbv zeta in H5. destruct H5 as (_ & _ & H7 & _).
      rewrite IH in H1 by lia. injection H1 as <-.
      rewrite add_nan_l in H7.
      now replace (k + S d)%nat with (S (k + d)) by lia. }
  assert (HT' : forall j, (k <= j < N)%nat -> T !! j = Some nan).
  { intros j Hj. replace j with (k + (j - k))%nat by lia. apply HT. lia. }
  assert (Hu : forall j, (k <= j)%nat -> (S j < N)%nat ->
            exists x, u !! j = Some x /\ PrimFloat.is_nan x = true).
  { intros j Hj HSj.
    destruct (Hrec j HSj) as (T_j & t_j & u_j & prev & H1 & _ & H3 & _ & H5).
    cbv zeta in H5. destruct H5 as (_ & H6 & _).
    rewrite HT' in H1 by lia. injection H1 as <-.
    rewrite sub_nan_r, mul_nan_r, !add_nan_l in H6.
    exists u_j. split; [exact H3|]. rewrite H6. now apply clip_nan. }
  intros j x Hj [Hx | [Hx | Hx]].
  - pose proof (lookup_lt_Some _ _ _ Hx).
    rewrite HT' in Hx by lia. now injection Hx as <-.
  - pose proof (lookup_lt_Some _ _ _ Hx) as Hlt.
    destruct (decide (S j < N)%nat) as [HSj|HSj].
    + destruct (Hu j Hj HSj) as (x' & Hx' & Hn). congruence.
    + destruct Hlast as (T_last & u_prev & _ & _ & Hprev & Hu_last).
      replace (N - 1)%nat with j in Hu_last by lia.
      destruct (Hu (N - 2)%nat) as (x' & Hx' & Hn); [lia..|].
      congruence.
  - pose proof (lookup_lt_Some _ _ _ Hx).
    rewrite (Herr j nan) in Hx by (apply HT'; lia).
    rewrite sub_nan_r in Hx. now injection Hx as <-.
Qed.

End NaN_facts.

(** ** A longer run extends a shorter one *)

Section Horizon.

Variables T_ambient T_set T_initial tau k_heat Kp Ki Kd dt : float.

Local Open Scope float_scope.

Local Abbreviation records_step :=
  (records_step T_ambient T_set tau k_heat Kp Ki Kd dt).

(** Two quadruples of arrays that start alike and record the same
    iterations agree on everything these iterations wrote. *)
Lemma records_agree (t T u e t' T' u' e' : list float) (k : nat) :
  T !! 0%nat = Some T_initial -> T' !! 0%nat = Some T_initial ->
  t !! 0%nat = Some 0 -> t' !! 0%nat = Some 0 ->
  (forall j, (j < k)%nat -> records_step j t T u e) ->
  (forall j, (j < k)%nat -> records_step j t' T' u' e') ->
  take k e = take k e' /\ take k u = take k u' /\
  take (S k) T = take (S k) T' /\ take (S k) t = take (S k) t'.
Proof.
  intros HT0 HT0' Ht0 Ht0'.
  induction k as [|k IH]; intros Hrec Hrec'.
  - rewrite (take_S_r T 0 _ HT0), (take_S_r T' 0 _ HT0').
    rewrite (take_S_r t 0 _ Ht0), (take_S_r t' 0 _ Ht0').
    now rewrite !take_0.
  - destruct IH as (Ee & Eu & ET & Et); [intros; apply Hrec; lia
                                        | intros; apply Hrec'; lia |].
    destruct (Hrec k) as (T_k & t_k & u_k & prev & H1 & H2 & H3 & H4 & H5);
      [lia|].
    destruct (Hrec' k)
      as (T_k' & t_k' & u_k' & prev' & H1' & H2' & H3' & H4' & H5'); [lia|].
    cbv zeta in H5, H5'.
    destruct H5 as (H5 & H6 & H7 & H8). destruct H5' as (H5' & H6' & H7' & H8').
    assert (T_k' = T_k) as ->.
    { apply (f_equal (fun l => l !! k)) in ET.
      rewrite !lookup_take_lt in ET by lia. congruence. }
    assert (t_k' = t_k) as ->.
    { apply (f_equal (fun l => l !! k)) in Et.
      rewrite !lookup_take_lt in Et by lia. congruence. }
    assert (Ee' : take (S k) e = take (S k) e').
    { rewrite (take_S_r e k _ H5), (take_S_r e' k _ H5'). now rewrite Ee. }
    assert (prev' = prev) as ->.
    { apply (f_equal (fun l => l !! Nat.pred k)) in Ee'.
      rewrite !lookup_take_lt in Ee' by lia. congruence. }
    assert (u_k' = u_k) as -> by (rewrite H6, H6', Ee'; reflexivity).
    split; [exact Ee'|]. split.
    { rewrite (take_S_r u k _ H3), (take_S_r u' k _ H3'). now rewrite Eu. }
    split.
    { rewrite (take_S_r T (S k) _ H7), (take_S_r T' (S k) _ H7').
      now rewrite ET. }
    rewrite (take_S_r t (S k) _ H8), (take_S_r t' (S k) _ H8').
    now rewrite Et.
Qed.

(** Of two runs that differ in the number of samples only, the shorter
    is the beginning of the longer. *)
Lemma runs_prefix (n n' : Z) (short long : trace) :
  (2 <= n)%Z -> (n <= n')%Z ->
  simulate_pid_room T_ambient T_set T_initial tau k_heat Kp Ki Kd dt n
  = Ok short ->
  simulate_pid_room T_ambient T_set T_initial tau k_heat Kp Ki Kd dt n'
  = Ok long ->
  prefix_of_trace (Z.to_nat n) short long.
Proof.
  intros Hn Hn' Es El.
  destruct (simulate_ok T_ambient T_set T_initial tau k_heat Kp Ki Kd dt
              n Hn) as ([[[t T] u] e] & E & H).
  destruct (simulate_ok T_ambient T_set T_initial tau k_heat Kp Ki Kd dt
              n' ltac:(lia)) as ([[[t' T'] u'] e'] & E' & H').
  rewrite Es in E. injection E as ->. rewrite El in E'. injection E' as ->.
  pose proof (trace_spec_errors _ _ _ _ _ _ _ _ _ _ _ H') as Herr'.
  destruct H as (Lt & LT & Lu & Le & Ht0 & HT0 & Hrec & Hlast).
  destruct H' as (Lt' & LT' & Lu' & Le' & Ht0' & HT0' & Hrec' & _).
  set (N := Z.to_nat n) in *. set (N' := Z.to_nat n') in *.
  assert (HN : (2 <= N <= N')%nat) by (unfold N, N'; lia).
  destruct (records_agree t T u e t' T' u' e' (N - 1) HT0 HT0' Ht0 Ht0')
    as (Ee & Eu & ET & Et).
  { intros j Hj. apply Hrec. lia. }
  { intros j Hj. apply Hrec'. lia. }
  replace (S (N - 1)) with N in ET, Et by lia.
  rewrite (take_ge T) in ET by lia. rewrite (take_ge t) in Et by lia.
  unfold prefix_of_trace.
  split; [exact Et|]. split; [exact ET|]. split; [|exact Eu].
  destruct Hlast as (T_last & u_prev & H1 & H2 & _).
  assert (H1' : T' !! (N - 1)%nat = Some T_last).
  { rewrite ET in H1. rewrite lookup_take_lt in H1 by lia. exact H1. }
  rewrite <- (take_ge e N) by lia.
  replace N with (S (N - 1)) at 1 2 by lia.
  rewrite (take_S_r e _ _ H2), (take_S_r e' _ _ (Herr' _ _ H1')).
  now rewrite Ee.
Qed.

(** X4. Two runs that differ in the number of samples only, [n <= n']
    with [n >= 2]: the shorter trace is the beginning of the longer one.
    Times, temperatures and errors agree on all [n] samples and the
    control values on the first [n - 1]; a longer horizon changes nothing
    of what was computed before. *)
Theorem horizon_extension (n n' : Z) :
  (2 <= n)%Z -> (n <= n')%Z ->
  exists short long,
    simulate_pid_room T_ambient T_set T_initial tau k_heat Kp Ki Kd dt n
    = Ok short /\
    simulate_pid_room T_ambient T_set T_initial tau k_heat Kp Ki Kd dt n'
    = Ok long /\
    prefix_of_trace (Z.to_nat n) short long.
Proof.
  intros Hn Hn'.
  destruct (simulate_ok T_ambient T_set T_initial tau k_heat Kp Ki Kd dt
              n Hn) as (short & E & _).
  destruct (simulate_ok T_ambient T_set T_initial tau k_heat Kp Ki Kd dt
              n' ltac:(lia)) as (long & E' & _).
  exists short, long. split; [exact E|]. split; [exact E'|].
  now apply (runs_prefix n n').
Qed.

End Horizon.

(** ** Where a run can raise *)

Section Raises.

Variables T_ambient T_set T_initial tau k_heat Kp Ki Kd dt : float.
Variable n_steps : Z.

Local Abbreviation init := (init T_set T_initial n_steps).
Local Abbreviation loop_body :=
  (loop_body T_ambient T_set tau k_heat Kp Ki Kd dt).
Local Abbreviation finish := (finish T_set).
Local Abbreviation loop_prefix :=
  (loop_prefix T_ambient T_set T_initial tau k_heat Kp Ki Kd dt n_steps).
Local Abbreviation step :=
  (step T_ambient T_set T_initial tau k_heat Kp Ki Kd dt n_steps).



End Raises.

(** * The page *)

Lemma bind_Done {A B : Type} (a : A) (f : A -> py_result B) :
  (Done a ≫= f) = f a.
Proof. reflexivity. Qed.

Lemma bind_Throw {A B : Type} (x : py_exn) (f : A -> py_result B) :
  (Throw x ≫= f) = Throw x.
Proof. reflexivity. Qed.

(** ** The integer part of a float *)

Lemma digits2_pos_bounds (m : positive) :
  (2 ^ (Z.pos (digits2_pos m) - 1) <= Z.pos m < 2 ^ Z.pos (digits2_pos m))%Z.
Proof.
  induction m as [m IH|m IH|]; simpl digits2_pos.
  - rewrite Pos2Z.inj_succ.
    replace (Z.succ (Z.pos (digits2_pos m)) - 1)%Z
      with (Z.succ (Z.pos (digits2_pos m) - 1)) by lia.
    rewrite !Z.pow_succ_r by lia. lia.
  - rewrite Pos2Z.inj_succ.
    replace (Z.succ (Z.pos (digits2_pos m)) - 1)%Z
      with (Z.succ (Z.pos (digits2_pos m) - 1)) by lia.
    rewrite !Z.pow_succ_r by lia. lia.
  - simpl. lia.
Qed.

(** The mantissa of a float64 has at most 53 bits, and exactly 53 unless
    the float is subnormal. *)
Lemma valid_mantissa (s : bool) (m : positive) (e : Z) :
  valid_binary (S754_finite s m e) = true ->
  (Z.pos m < 9007199254740992)%Z /\
  ((-1074 < e)%Z -> (4503599627370496 <= Z.pos m)%Z).
Proof.
  unfold valid_binary, SpecFloat.valid_binary, bounded, canonical_mantissa,
    fexp, emin, prec, emax.
  intros H. apply andb_prop in H as [H _]. apply Z.eqb_eq in H.
  pose proof (digits2_pos_bounds m) as [Hlo Hhi].
  set (d := Z.pos (digits2_pos m)) in *.
  assert (Hd : (0 < d)%Z) by (unfold d; lia).
  split.
  - assert (d <= 53)%Z by lia.
    change 9007199254740992%Z with (2 ^ 53)%Z.
    apply Z.lt_le_trans with (2 ^ d)%Z; [exact Hhi|].
    apply Z.pow_le_mono_r; lia.
  - intros He. assert (Hd53 : (d - 1 = 52)%Z) by lia.
    rewrite Hd53 in Hlo. exact Hlo.
Qed.

(** [int(x) >= 1] for a finite [x >= 1] ... *)
Lemma int_at_least_1 (x : float) :
  PrimFloat.leb 1 x = true -> PrimFloat.ltb x infinity = true ->
  exists i, py.int x = Done i /\ (1 <= i)%Z.
Proof.
  rewrite leb_spec, ltb_spec. unfold py.int.
  pose proof (Prim2SF_valid x) as Hv.
  change (Prim2SF infinity) with (S754_infinity false).
  set (one := Prim2SF 1). vm_compute in one. subst one.
  unfold SFleb, SFltb.
  destruct (Prim2SF x) as [s|s| |s m e];
    cbv beta iota delta [SFcompare]; try discriminate.
  - now destruct s.
  - destruct s; [discriminate|]. intros Hle _.
    eexists. split; [reflexivity|]. cbn [cond_Zopp].
    apply valid_mantissa in Hv as [Hhi Hlo].
    destruct (Z.compare_spec (-52) e) as [<- | Hlt | Hgt];
      try discriminate.
    + change (Pos.compare_cont Eq 4503599627370496 m)
        with (4503599627370496 ?= m)%positive in Hle.
      assert (Hm : (4503599627370496 <= m)%positive).
      { intros Hc. now rewrite Hc in Hle. }
      rewrite Z.shiftl_div_pow2 by lia.
      change (2 ^ (- -52))%Z with 4503599627370496%Z.
      apply Z.div_le_lower_bound; [reflexivity|].
      rewrite Z.mul_1_r. exact (Pos2Z.pos_le_pos _ _ Hm).
    + destruct (Z_le_gt_dec 0 e).
      * rewrite Z.shiftl_mul_pow2 by lia.
        assert (0 < 2 ^ e)%Z by (apply Z.pow_pos_nonneg; lia). nia.
      * rewrite Z.shiftl_div_pow2 by lia.
        apply Z.div_le_lower_bound; [apply Z.pow_pos_nonneg; lia|].
        rewrite Z.mul_1_r.
        apply Z.le_trans with (2 ^ 52)%Z; [|apply Hlo; lia].
        apply Z.pow_le_mono_r; lia.
Qed.


(** ** From the sliders to the table *)

(** With fewer than two samples the driver raises. *)
Lemma simulate_raises_below_2
    (T_ambient T_set T_initial tau k_heat Kp Ki Kd dt : float) (n_steps : Z) :
  (n_steps < 2)%Z ->
  exists x,
    simulate_pid_room T_ambient T_set T_initial tau k_heat Kp Ki Kd dt n_steps
    = Raise x.
Proof.
  intros Hn. destruct (Z_lt_le_dec n_steps 0) as [Hneg|Hpos].
  - exists ValueError. unfold simulate_pid_room, init, np.zeros.
    destruct (Z.ltb_spec n_steps 0); [|lia]. now rewrite !bind_Raise.
  - exists IndexError.
    assert (Hcases : n_steps = 0%Z \/ n_steps = 1%Z) by lia.
    destruct Hcases as [-> | ->]; vm_compute; reflexivity.
Qed.

Section Page.

Variables T_ambient T_set tau k_heat Kp Ki Kd T_initial t_max dt : float.

Local Open Scope float_scope.

Local Abbreviation appy :=
  (appy T_ambient T_set tau k_heat Kp Ki Kd T_initial t_max dt).


(** X8. Whenever [dt] is not zero and [t_max / dt] is a finite float
    that is at least 1, the page computes [n_steps = int(t_max / dt) + 1],
    hands the driver's trace for that many steps to the plots, and
    tabulates its first [min(20, n_steps)] samples: four columns of the
    same length, between 2 and 20 rows, in each row the error being the
    set point minus the temperature. *)
Theorem appy_table :
  (dt =? 0) = false -> (1 <=? t_max / dt) = true ->
  (t_max / dt <? infinity) = true ->
  exists p,
    appy = Done p /\
    py.int (t_max / dt) = Done (shown_n_steps p - 1)%Z /\
    simulate_pid_room T_ambient T_set T_initial tau k_heat Kp Ki Kd dt
      (shown_n_steps p) = Ok (plotted p) /\
    table_of_first_rows T_set p.
Proof.
  intros Hdt Hle Hlt. unfold appy, py.truediv. rewrite Hdt, bind_Done.
  destruct (int_at_least_1 _ Hle Hlt) as (i & Ei & Hi).
  rewrite Ei, bind_Done. cbv zeta.
  destruct (simulate_ok T_ambient T_set T_initial tau k_heat Kp Ki Kd dt
              (i + 1) ltac:(lia)) as ([[[t T] u] e] & E & H).
  rewrite E. simpl. eexists. split; [reflexivity|]. simpl.
  split; [f_equal; lia|]. split; [exact E|].
  pose proof (trace_spec_errors _ _ _ _ _ _ _ _ _ _ _ H) as Herr.
  destruct H as (Lt & LT & Lu & Le & _).
  unfold table_of_first_rows. simpl.
  set (rows := Z.to_nat (Z.min 20 (i + 1))).
  assert (Hrows : (2 <= rows <= 20)%nat /\ (rows <= Z.to_nat (i + 1))%nat)
    by (unfold rows; lia).
  assert (Hslice : forall a : list float,
            length a = Z.to_nat (i + 1) ->
            py.slice_to a (Z.min 20 (i + 1)) = take rows a).
  { intros a La. unfold py.slice_to.
    destruct (Z.ltb_spec (Z.min 20 (i + 1)) 0); [lia|].
    f_equal. unfold rows. lia. }
  split; [lia|]. split; [unfold rows; lia|].
  split; [now rewrite !Hslice by assumption|].
  rewrite !length_take_le by lia.
  repeat split.
  intros j T_j HTj. apply lookup_take_Some in HTj as [HTj Hj].
  rewrite lookup_take_lt by exact Hj. now apply Herr.
Qed.

End Page.

(** ** The table and the duration *)

Lemma slice_to_nonneg (a : list float) (stop : Z) :
  (0 <= stop)%Z -> py.slice_to a stop = take (Z.to_nat stop) a.
Proof.
  intros Hstop. unfold py.slice_to.
  destruct (Z.ltb_spec stop 0); [lia|].
  destruct (Z_le_gt_dec stop (Z.of_nat (length a))).
  - now rewrite Z.min_l by lia.
  - rewrite Z.min_r, Nat2Z.id, !take_ge by lia. reflexivity.
Qed.

Lemma first_rows_agree (N : nat) (short long : trace) :
  prefix_of_trace N short long -> (21 <= N)%nat ->
  let '(t, T, u, e) := short in
  let '(t', T', u', e') := long in
  (take 20 t, take 20 T, take 20 u, take 20 e)
  = (take 20 t', take 20 T', take 20 u', take 20 e').
Proof.
  destruct short as [[[t T] u] e], long as [[[t' T'] u'] e'].
  intros (-> & -> & -> & Hu) HN.
  rewrite !take_take.
  replace (take 20 u) with (take 20 (take (N - 1) u))
    by (rewrite take_take; f_equal; lia).
  rewrite Hu, take_take.
  repeat f_equal; lia.
Qed.

Section Table.

Variables T_ambient T_set tau k_heat Kp Ki Kd T_initial dt : float.

Local Abbreviation appy t_max :=
  (appy T_ambient T_set tau k_heat Kp Ki Kd T_initial t_max dt).

(** What a page that is shown consists of. *)
Lemma appy_Done (t_max : float) (p : page) :
  appy t_max = Done p ->
  (2 <= shown_n_steps p)%Z /\
  simulate_pid_room T_ambient T_set T_initial tau k_heat Kp Ki Kd dt
    (shown_n_steps p) = Ok (plotted p) /\
  df p = (let '(t, T, u, e) := plotted p in
          let max_rows := Z.min 20 (shown_n_steps p) in
          (py.slice_to t max_rows, py.slice_to T max_rows,
           py.slice_to u max_rows, py.slice_to e max_rows)).
Proof.
  unfold appy, py.truediv. intros Hp.
  destruct (PrimFloat.eqb dt 0); [discriminate|].
  rewrite bind_Done in Hp.
  destruct (py.int (t_max / dt)) as [i|x]; [|discriminate].
  rewrite bind_Done in Hp. cbv zeta in Hp.
  destruct (Z_lt_le_dec (i + 1) 2) as [Hsmall|Hbig].
  - destruct (simulate_raises_below_2 T_ambient T_set T_initial tau k_heat
                Kp Ki Kd dt (i + 1) Hsmall) as [x Hx].
    rewrite Hx in Hp. discriminate.
  - destruct (simulate_pid_room T_ambient T_set T_initial tau k_heat Kp Ki Kd
                dt (i + 1)) as [[[[t T] u] e]|x] eqn:E;
      [|discriminate].
    simpl in Hp. injection Hp as <-. simpl. now rewrite E.
Qed.

(** X10. The table does not depend on the simulated duration once the
    run has more than 20 steps: two pages that differ in [t_max] only,
    each with at least 21 steps, tabulate the same 20 rows. *)
Theorem table_stable (t_max t_max' : float) (p p' : page) :
  appy t_max = Done p -> appy t_max' = Done p' ->
  (21 <= shown_n_steps p)%Z -> (21 <= shown_n_steps p')%Z ->
  df p = df p'.
Proof.
  intros Hp Hp' Hn Hn'.
  apply appy_Done in Hp as (_ & E & ->).
  apply appy_Done in Hp' as (_ & E' & ->).
  destruct (plotted p) as [[[t T] u] e], (plotted p') as [[[t' T'] u'] e'].
  cbv beta iota zeta.
  rewrite !Z.min_l by lia.
  rewrite !slice_to_nonneg by lia. change (Z.to_nat 20) with 20%nat.
  destruct (Z_le_gt_dec (shown_n_steps p) (shown_n_steps p')) as [Hle|Hgt].
  - apply (first_rows_agree (Z.to_nat (shown_n_steps p)) (t, T, u, e)
             (t', T', u', e')); [|lia].
    apply (runs_prefix T_ambient T_set T_initial tau k_heat Kp Ki Kd dt
             (shown_n_steps p) (shown_n_steps p')); (lia || assumption).
  - symmetry.
    apply (first_rows_agree (Z.to_nat (shown_n_steps p')) (t', T', u', e')
             (t, T, u, e)); [|lia].
    apply (runs_prefix T_ambient T_set T_initial tau k_heat Kp Ki Kd dt
             (shown_n_steps p') (shown_n_steps p)); (lia || assumption).
Qed.

End Table.

(** ** The further theorems at concrete inputs *)

Local Open Scope float_scope.

Lemma errors_follow_temperatures_default :
  (2 <= 301)%Z /\
  exists tr,
    simulate_pid_room 20 22 18 60 0.5 1.5 one_tenth 0 1 301 = Ok tr /\
    errors_track_temperature 22 tr.
Proof. split; [lia | apply errors_follow_temperatures; lia]. Defined.

Lemma controls_from_errors_default :
  (2 <= 301)%Z /\
  exists tr,
    simulate_pid_room 20 22 18 60 0.5 1.5 one_tenth 0 1 301 = Ok tr /\
    controls_follow_errors 1.5 one_tenth 0 1 301 tr.
Proof. split; [lia | apply controls_from_errors; lia]. Defined.

Lemma times_closed_form_default :
  (2 <= 301)%Z /\
  exists t T u e,
    simulate_pid_room 20 22 18 60 0.5 1.5 one_tenth 0 1 301 = Ok (t, T, u, e) /\
    t = time_axis 1 (Z.to_nat 301).
Proof. split; [lia | apply times_closed_form; lia]. Defined.

Lemma horizon_extension_default :
  (2 <= 301)%Z /\ (301 <= 601)%Z /\
  exists short long,
    simulate_pid_room 20 22 18 60 0.5 1.5 one_tenth 0 1 301 = Ok short /\
    simulate_pid_room 20 22 18 60 0.5 1.5 one_tenth 0 1 601 = Ok long /\
    prefix_of_trace (Z.to_nat 301) short long.
Proof.
  split; [lia|]. split; [lia|]. apply horizon_extension; lia.
Defined.

Lemma nan_absorbing_zero_dt :
  (2 <= 3)%Z /\
  simulate_pid_room 20 22 18 60 0.5 1.5 0 0 0 3
  = Ok ([0; 0; 0], [18; nan; nan], [nan; nan; nan], [4; nan; nan]) /\
  (S 1 < Z.to_nat 3)%nat /\
  [18; nan; nan] !! 1%nat = Some nan /\
  PrimFloat.is_nan nan = true /\
  nan_from 1 ([0; 0; 0], [18; nan; nan], [nan; nan; nan], [4; nan; nan]).
Proof.
  split; [lia|]. split; [vm_compute; reflexivity|]. split; [vm_compute; lia|].
  split; [reflexivity|]. split; [reflexivity|].
  apply (nan_absorbing 20 22 18 60 0.5 1.5 0 0 0 3 ltac:(lia) _ _ _ _ 1%nat nan);
    [vm_compute; reflexivity | vm_compute; lia | reflexivity | reflexivity].
Defined.

Lemma appy_table_default :
  (1 =? 0) = false /\ (1 <=? 300 / 1) = true /\
  (300 / 1 <? infinity) = true /\
  exists p,
    appy 20 22 60 0.5 1.5 one_tenth 0 18 300 1 = Done p /\
    py.int (300 / 1) = Done (shown_n_steps p - 1)%Z /\
    simulate_pid_room 20 22 18 60 0.5 1.5 one_tenth 0 1 (shown_n_steps p)
    = Ok (plotted p) /\
    table_of_first_rows 22 p.
Proof.
  split; [reflexivity|]. split; [reflexivity|]. split; [reflexivity|].
  apply appy_table; reflexivity.
Defined.



Lemma table_stable_300_600 :
  appy 20 22 60 0.5 1.5 one_tenth 0 18 300 1 = Done page_300 /\
  appy 20 22 60 0.5 1.5 one_tenth 0 18 600 1 = Done page_600 /\
  (21 <= shown_n_steps page_300)%Z /\ (21 <= shown_n_steps page_600)%Z /\
  df page_300 = df page_600.
Proof.
  assert (H300 : appy 20 22 60 0.5 1.5 one_tenth 0 18 300 1 = Done page_300)
    by (vm_compute; reflexivity).
  assert (H600 : appy 20 22 60 0.5 1.5 one_tenth 0 18 600 1 = Done page_600)
    by (vm_compute; reflexivity).
  split; [exact H300|]. split; [exact H600|].
  split; [vm_compute; discriminate|]. split; [vm_compute; discriminate|].
  apply (table_stable 20 22 60 0.5 1.5 one_tenth 0 18 1 300 600
           page_300 page_600 H300 H600); vm_compute; discriminate.
Defined.
